(** * showpnodesdbot: the RPC client and the stats aggregator of [index.js]

    A shallow embedding of [rpcCall], [extractPods], [getPodsByVersion],
    [getTotalPods] and [getPNodesInfo], with the JavaScript values they
    handle, followed by the properties of the report they produce.

    Conventions of the embedding
    - a value is what [JSON.parse] can produce, plus [undefined];
    - a function that may throw returns a [result]; a function that may
      also write to the console returns a [js] computation (log and result);
    - an [async] function is modelled by the outcome of its promise; the
      instant at which that promise settles is part of the run, since
      [Promise.all] rejects with the rejection that comes first in time.
      A transport that never answers is outside the model. *)

From Stdlib Require Import String Ascii List ZArith Lia Bool Arith DecimalString Permutation.
Import ListNotations.
Local Open Scope list_scope.
Local Open Scope string_scope.
Set Warnings "-register-all".

(** ** Values *)

(** A JavaScript number.  [Int z] is an integer-valued double whose text is
    its plain decimal notation (array lengths, HTTP status codes, the usual
    counters); any other double is kept as [Dbl text], identified by the
    text [Number::toString] gives it. *)
Inductive number : Type :=
| Int (z : Z)
| Dbl (text : string).

Inductive value : Type :=
| VUndefined
| VNull
| VBool (b : bool)
| VNumber (n : number)
| VString (s : string)
| VArray (items : list value)
| VObject (fields : list (string * value)).

(** Thrown values.  Everything this program or its runtime throws is an
    [Error] object; the constructor records its class, [message] its
    [.message] property. *)
Inductive exn : Type :=
| Error (msg : string)        (* [new Error(msg)], thrown by index.js *)
| TypeError (msg : string)    (* thrown by the engine *)
| FetchError (msg : string).  (* thrown by node-fetch *)

Definition message (e : exn) : string :=
  match e with
  | Error m | TypeError m | FetchError m => m
  end.

Inductive result (A : Type) : Type :=
| Ok (a : A)
| Throw (e : exn).

Arguments Ok {A} a.
Arguments Throw {A} e.

Definition rbind {A B} (r : result A) (k : A -> result B) : result B :=
  match r with
  | Ok a => k a
  | Throw e => Throw e
  end.

(** [try { body } catch (err) { handler }] *)
Definition try_catch {A} (body : result A) (handler : exn -> result A) : result A :=
  match body with
  | Ok a => Ok a
  | Throw e => handler e
  end.

Declare Scope result_scope.
Delimit Scope result_scope with result.
Notation "x <- r ;; k" := (rbind r (fun x => k))
  (at level 61, r at next level, right associativity) : result_scope.

(** ** Primitive operations of the language *)

Definition number_to_string (n : number) : string :=
  match n with
  | Int z => NilZero.string_of_int (Z.to_int z)
  | Dbl text => text
  end.

(** [ToBoolean] *)
Definition truthy (v : value) : bool :=
  match v with
  | VUndefined | VNull => false
  | VBool b => b
  | VNumber (Int z) => negb (Z.eqb z 0)
  | VNumber (Dbl text) => negb (String.eqb text "NaN")
  | VString s => negb (String.eqb s "")
  | VArray _ | VObject _ => true
  end.

(** The property names index.js reads.  None of them is an index, [length]
    or a member inherited from a prototype, so on an array or a primitive
    they are all absent. *)
Module Field.
Inductive t : Type := pods | version | total_count | error | code | message | result.

Definition name (f : t) : string :=
  match f with
  | pods => "pods"
  | version => "version"
  | total_count => "total_count"
  | error => "error"
  | code => "code"
  | message => "message"
  | result => "result"
  end.
End Field.

Fixpoint lookup (k : string) (fields : list (string * value)) : option value :=
  match fields with
  | [] => None
  | (k', v) :: rest => if String.eqb k k' then Some v else lookup k rest
  end.

(** [v.f]: reading a property of [null] or [undefined] throws. *)
Definition get (v : value) (f : Field.t) : result value :=
  match v with
  | VUndefined =>
      Throw (TypeError ("Cannot read properties of undefined (reading '" ++ Field.name f ++ "')"))
  | VNull =>
      Throw (TypeError ("Cannot read properties of null (reading '" ++ Field.name f ++ "')"))
  | VObject fields =>
      match lookup (Field.name f) fields with
      | Some x => Ok x
      | None => Ok VUndefined
      end
  | _ => Ok VUndefined
  end.

Definition Array_isArray (v : value) : bool :=
  match v with
  | VArray _ => true
  | _ => false
  end.

(** [typeof v === 'number'] *)
Definition typeof_number (v : value) : bool :=
  match v with
  | VNumber _ => true
  | _ => false
  end.

Definition has_own (k : string) (fields : list (string * value)) : bool :=
  match lookup k fields with
  | Some _ => true
  | None => false
  end.

(** [String(v)], also the conversion a template literal applies.
    An array is joined with commas, [null] and [undefined] elements giving
    the empty text.  A parsed object inherits [Object.prototype.toString]
    unless it has a [toString] key of its own, which is then not callable
    and leaves no way to a primitive. *)
Fixpoint to_string (v : value) : result string :=
  match v with
  | VUndefined => Ok "undefined"
  | VNull => Ok "null"
  | VBool true => Ok "true"
  | VBool false => Ok "false"
  | VNumber n => Ok (number_to_string n)
  | VString s => Ok s
  | VArray items =>
      (fix join (l : list value) : result string :=
         match l with
         | [] => Ok ""
         | x :: rest =>
             let element :=
               match x with
               | VUndefined | VNull => Ok ""
               | _ => to_string x
               end in
             match rest with
             | [] => element
             | _ :: _ =>
                 rbind element (fun s =>
                 rbind (join rest) (fun r => Ok (s ++ "," ++ r)))
             end
         end) items
  | VObject fields =>
      if has_own "toString" fields
      then Throw (TypeError "Cannot convert object to primitive value")
      else Ok "[object Object]"
  end.

(** [s.includes(f)] *)
Fixpoint includes (s f : string) : bool :=
  if String.prefix f s then true
  else match s with
       | EmptyString => false
       | String _ s' => includes s' f
       end.

(** ** Computations that write to the console *)

(** One [console.warn(text, JSON.stringify(payload))]; the entry keeps the
    value whose JSON text is printed. *)
Record diagnostic : Type := Warn { warn_text : string; warn_payload : value }.

Definition js (A : Type) : Type := list diagnostic * result A.

Definition ret {A} (a : A) : js A := ([], Ok a).

Definition lift {A} (r : result A) : js A := ([], r).

Definition console_warn (text : string) (payload : value) : js unit :=
  ([Warn text payload], Ok tt).

Definition bind {A B} (m : js A) (k : A -> js B) : js B :=
  match m with
  | (log, Ok a) => let (log', r) := k a in ((log ++ log')%list, r)
  | (log, Throw e) => (log, Throw e)
  end.

Definition outcome {A} (m : js A) : result A := snd m.

Declare Scope js_scope.
Delimit Scope js_scope with js.
Notation "x <- m ;; k" := (bind m (fun x => k))
  (at level 61, m at next level, right associativity) : js_scope.
Notation "m ;; k" := (bind m (fun _ => k))
  (at level 61, right associativity) : js_scope.

(** ** The transport *)

Definition RPC_URL : string := "http://127.0.0.1:6000/rpc".

(** The JSON-RPC envelope built by [rpcCall]. *)
Record payload : Type := Payload {
  jsonrpc : string;
  id : Z;
  method : string;
  params : list value
}.

(** What [fetch] is called with; [body] is sent as its JSON text. *)
Record request : Type := Request {
  url : string;
  http_method : string;
  content_type : string;
  body : payload
}.

(** What [fetch] resolves to; [json] is the outcome of [res.json()]. *)
Record response : Type := Response {
  ok : bool;
  status : Z;
  statusText : string;
  json : result value
}.

(** The surroundings of one call of [rpcCall]: the reading of [Date.now()],
    the answer of the transport to the request sent, and the instant at
    which the promise of the query that makes the call settles. *)
Record call : Type := Call {
  now : Z;
  fetch : request -> result response;
  settles : nat
}.

(** ** index.js *)

Definition rpcCall (c : call) (method : string) (params : list value) : result value :=
  (let payload := Payload "2.0" (now c) method params in
   res <- fetch c (Request RPC_URL "POST" "application/json" payload) ;;
   if negb (ok res) then
     Throw (Error ("RPC request failed: " ++ number_to_string (Int (status res))
                     ++ " " ++ statusText res))
   else
     data <- json res ;;
     err <- get data Field.error ;;
     if truthy err then
       code <- get err Field.code ;;
       code_text <- to_string code ;;
       msg <- get err Field.message ;;
       msg_text <- to_string msg ;;
       Throw (Error ("RPC error (" ++ code_text ++ "): " ++ msg_text))
     else
       get data Field.result)%result.

(** The array returned is given as the list of its elements; in the first
    branch the guard has found [rpcResult.pods] to be an array. *)
Definition extractPods (rpcResult : value) : js (list value) :=
  (guard <- lift (if truthy rpcResult
                  then (p <- get rpcResult Field.pods ;; Ok (Array_isArray p))%result
                  else Ok false) ;;
   if (guard : bool) then
     p <- lift (get rpcResult Field.pods) ;;
     match p with
     | VArray items => ret items
     | _ => ret []
     end
   else
     console_warn "extractPods: unexpected RPC shape" rpcResult ;;
     ret [])%js.

(** [array.filter(keep)], [keep] being called on the elements in order. *)
Fixpoint filter_array (keep : value -> result bool) (l : list value) : result (list value) :=
  match l with
  | [] => Ok []
  | x :: rest =>
      (b <- keep x ;;
       kept <- filter_array keep rest ;;
       Ok (if (b : bool) then x :: kept else kept))%result
  end.

(** [pod => String(pod.version).includes(versionFragment)] *)
Definition matches (versionFragment : string) (pod : value) : result bool :=
  (v <- get pod Field.version ;;
   text <- to_string v ;;
   Ok (includes text versionFragment))%result.

(** Lines 81 to 84 of [getPodsByVersion]: what is done with the RPC result. *)
Definition countByFragment (rpcResult : value) (versionFragment : string) : js value :=
  (podsArray <- extractPods rpcResult ;;
   kept <- lift (filter_array (matches versionFragment) podsArray) ;;
   ret (VNumber (Int (Z.of_nat (length kept)))))%js.

Definition getPodsByVersion (c : call) (versionFragment : string) : js value :=
  (rpcResult <- lift (rpcCall c "get-pods" []) ;;
   countByFragment rpcResult versionFragment)%js.

(** Lines 93 to 98 of [getTotalPods]. *)
Definition totalCount (rpcResult : value) : js value :=
  (guard <- lift (if truthy rpcResult
                  then (t <- get rpcResult Field.total_count ;; Ok (typeof_number t))%result
                  else Ok false) ;;
   if (guard : bool) then
     lift (get rpcResult Field.total_count)
   else
     podsArray <- extractPods rpcResult ;;
     ret (VNumber (Int (Z.of_nat (length podsArray)))))%js.

Definition getTotalPods (c : call) : js value :=
  (rpcResult <- lift (rpcCall c "get-pods" []) ;;
   totalCount rpcResult)%js.

(** A promise that has settled: when, and how. *)
Record promise (A : Type) : Type := Promise { settled_at : nat; settled : result A }.
Arguments Promise {A} settled_at settled.
Arguments settled_at {A} p.
Arguments settled {A} p.

(** The rejection that comes first in time, of two at the same instant the
    one of the promise listed first. *)
Fixpoint first_rejection {A} (ps : list (promise A)) : option (nat * exn) :=
  match ps with
  | [] => None
  | p :: rest =>
      match settled p, first_rejection rest with
      | Throw e, Some (t', e') =>
          if Nat.leb (settled_at p) t' then Some (settled_at p, e) else Some (t', e')
      | Throw e, None => Some (settled_at p, e)
      | Ok _, later => later
      end
  end.

Fixpoint fulfilled {A} (ps : list (promise A)) : list A :=
  match ps with
  | [] => []
  | p :: rest =>
      match settled p with
      | Ok a => a :: fulfilled rest
      | Throw _ => fulfilled rest
      end
  end.

(** [await Promise.all(ps)]: the values in the order of the list, or the
    first rejection. *)
Definition Promise_all {A} (ps : list (promise A)) : result (list A) :=
  match first_rejection ps with
  | Some (_, e) => Throw e
  | None => Ok (fulfilled ps)
  end.

(** One run of [getPNodesInfo]: the surroundings of its four queries.
    What the queries print is no part of what the function returns, and a
    query may print after the function has returned. *)
Record run : Type := Run {
  query040 : call;
  query041 : call;
  query042 : call;
  queryTotal : call
}.

Definition newline : string := String (ascii_of_nat 10) EmptyString.

Definition getPNodesInfo (r : run) : result string :=
  try_catch
    (figures <- Promise_all
         [ Promise (settles (query040 r)) (outcome (getPodsByVersion (query040 r) "0.4.0"));
           Promise (settles (query041 r)) (outcome (getPodsByVersion (query041 r) "0.4.1"));
           Promise (settles (query042 r)) (outcome (getPodsByVersion (query042 r) "0.4.2"));
           Promise (settles (queryTotal r)) (outcome (getTotalPods (queryTotal r))) ] ;;
     let count040 := nth 0 figures VUndefined in
     let count041 := nth 1 figures VUndefined in
     let count042 := nth 2 figures VUndefined in
     let total := nth 3 figures VUndefined in
     t040 <- to_string count040 ;;
     t041 <- to_string count041 ;;
     t042 <- to_string count042 ;;
     ttotal <- to_string total ;;
     Ok ("```ml" ++ newline ++
         "pNodes Version: Counts" ++ newline ++
         "       `0.4.0`:      " ++ t040 ++ newline ++
         "       `0.4.1`:      " ++ t041 ++ newline ++
         "       `0.4.2`:    " ++ t042 ++ newline ++
         "         Total:    " ++ ttotal ++ newline ++
         "```"))%result
    (fun err => Ok ("Error retrieving data: " ++ message err)).


(** ** The vocabulary of the properties *)

(** [f] occurs in [s]: a substring, compared character by character. *)
Definition contains (s f : string) : Prop :=
  exists pre post, s = pre ++ f ++ post.

(** The text of the version of a pod: [String(pod.version)]. *)
Definition version_text (pod : value) : result string :=
  (v <- get pod Field.version ;; to_string v)%result.

(** [counts f pods n]: [n] entries of [pods] have a version text in which
    [f] occurs. *)
Inductive counts (f : string) : list value -> nat -> Prop :=
| counts_nil : counts f [] 0
| counts_hit pod t rest n :
    version_text pod = Ok t -> contains t f ->
    counts f rest n -> counts f (pod :: rest) (S n)
| counts_miss pod t rest n :
    version_text pod = Ok t -> ~ contains t f ->
    counts f rest n -> counts f (pod :: rest) n.

(** The input is not null and its [pods] field is the list [items]. *)
Definition has_pods_list (v : value) (items : list value) : Prop :=
  v <> VUndefined /\ v <> VNull /\ get v Field.pods = Ok (VArray items).

(** The [total_count] field of the result, when it is a number. *)
Definition numeric_total_count (v : value) : option number :=
  match v with
  | VObject fields =>
      match lookup "total_count" fields with
      | Some (VNumber n) => Some n
      | _ => None
      end
  | _ => None
  end.

(** The [pods] field of the result when it is a list, the empty list
    otherwise. *)
Definition pods_or_empty (v : value) : list value :=
  match v with
  | VObject fields =>
      match lookup "pods" fields with
      | Some (VArray items) => items
      | _ => []
      end
  | _ => []
  end.



(** The text of the report for four figures already converted to text. *)
Definition report_text (t040 t041 t042 ttotal : string) : string :=
  "```ml" ++ newline ++
  "pNodes Version: Counts" ++ newline ++
  "       `0.4.0`:      " ++ t040 ++ newline ++
  "       `0.4.1`:      " ++ t041 ++ newline ++
  "       `0.4.2`:    " ++ t042 ++ newline ++
  "         Total:    " ++ ttotal ++ newline ++
  "```".

(** Two outcomes of a call that agree: the same value, or failures with
    the same message. *)
Definition same_outcome (a b : result value) : Prop :=
  match a, b with
  | Ok x, Ok y => x = y
  | Throw e, Throw e' => message e = message e'
  | _, _ => False
  end.

(** The diagnostic [extractPods] prints for a result it cannot use. *)
Definition unexpected_shape (v : value) : diagnostic :=
  Warn "extractPods: unexpected RPC shape" v.

(** An array length, as the value it is in the program. *)
Definition count_value (n : nat) : value := VNumber (Int (Z.of_nat n)).

(** The text has a line break. *)
Definition multiline (s : string) : Prop := contains s newline.

(** The four queries of a report, in the order of the array handed to
    [Promise.all]. *)
Inductive query : Type := Q040 | Q041 | Q042 | QTotal.

Definition call_of (r : run) (q : query) : call :=
  match q with
  | Q040 => query040 r
  | Q041 => query041 r
  | Q042 => query042 r
  | QTotal => queryTotal r
  end.

(** What the RPC call made by a query gives. *)
Definition answer (r : run) (q : query) : result value :=
  rpcCall (call_of r q) "get-pods" [].

(** What a query gives: a count, the total, or a failure. *)
Definition figure (r : run) (q : query) : result value :=
  match q with
  | Q040 => outcome (getPodsByVersion (query040 r) "0.4.0")
  | Q041 => outcome (getPodsByVersion (query041 r) "0.4.1")
  | Q042 => outcome (getPodsByVersion (query042 r) "0.4.2")
  | QTotal => outcome (getTotalPods (queryTotal r))
  end.

Definition settled_query (r : run) (q : query) : promise value :=
  Promise (settles (call_of r q)) (figure r q).

Definition queries (r : run) : list (promise value) :=
  map (settled_query r) [Q040; Q041; Q042; QTotal].

(** The query fails in this run. *)
Definition fails (r : run) (q : query) : Prop := exists e, figure r q = Throw e.

(** The failing queries settle in the same order in both runs. *)
Definition same_order (r1 r2 : run) : Prop :=
  forall q q',
    fails r1 q -> fails r1 q' ->
    Nat.leb (settles (call_of r1 q)) (settles (call_of r1 q')) =
    Nat.leb (settles (call_of r2 q)) (settles (call_of r2 q')).

(** The place of a query in the array handed to [Promise.all]. *)
Definition rank (q : query) : nat :=
  match q with
  | Q040 => 0
  | Q041 => 1
  | Q042 => 2
  | QTotal => 3
  end.

(** The query fails and no failing query settles before it; of the
    failing queries that settle at the same instant it is the one listed
    first. *)
Definition settles_first (r : run) (q : query) : Prop :=
  fails r q
  /\ forall q', fails r q' ->
       settles (call_of r q) < settles (call_of r q')
       \/ (settles (call_of r q) = settles (call_of r q') /\ rank q <= rank q').

(** The request [rpcCall] sends. *)
Definition request_of (c : call) (method : string) (params : list value) : request :=
  Request RPC_URL "POST" "application/json" (Payload "2.0" (now c) method params).

(** The parsed body has an [error] field. *)
Definition has_error_field (data : value) : Prop :=
  exists fields x, data = VObject fields /\ lookup "error" fields = Some x.

(** ** Sample data *)

Definition pod (v : string) : value := VObject [("version", VString v)].

(** A transport that answers every request with status 200 and [body]. *)
Definition replies (body : value) : request -> result response :=
  fun _ => Ok (Response true 200 "OK" (Ok body)).

(** A transport whose body is a JSON-RPC success carrying [r]. *)
Definition returns (r : value) : request -> result response :=
  replies (VObject [("jsonrpc", VString "2.0"); ("result", r)]).

(** A transport whose body is a JSON-RPC error. *)
Definition fails_with (code : Z) (msg : string) : request -> result response :=
  replies (VObject [("jsonrpc", VString "2.0");
                    ("error", VObject [("code", VNumber (Int code));
                                       ("message", VString msg)])]).

Definition four_pods : value :=
  VObject [("pods", VArray [pod "0.4.0"; pod "0.4.1"; pod "0.4.1"; pod "0.4.2"]);
           ("total_count", VNumber (Int 4))].

Definition same_call_four_times (c : call) : run := Run c c c c.

(** A transport that answers with a status outside the 2xx range. *)
Definition http_error (code : Z) (reason : string) : request -> result response :=
  fun _ => Ok (Response false code reason (Ok VNull)).

Definition pods_with_null : value :=
  VObject [("pods", VArray [pod "0.4.1"; VNull])].



Definition diverging_total : value :=
  VObject [("pods", VArray [pod "0.4.1"]); ("total_count", VNumber (Int 7))].

Definition overlapping_pods : value :=
  VObject [("pods", VArray [pod "0.4.10"; pod "0.5.0"])].

Definition two_lines : string := "first line" ++ newline ++ "second line".

(** Three queries succeed, the total fails with a message of two lines. *)
Definition run_with_long_message : run :=
  Run (Call 1 (returns four_pods) 1) (Call 2 (returns four_pods) 2)
      (Call 3 (returns four_pods) 3) (Call 4 (fails_with 1 two_lines) 4).

(** The first two queries fail, the first one first. *)
Definition run_status_first : run :=
  Run (Call 1 (http_error 500 "Internal Server Error") 1)
      (Call 1 (fails_with (-32601) "method not found") 2)
      (Call 1 (returns four_pods) 3) (Call 1 (returns four_pods) 4).

(** The same answers, the second query failing first. *)
Definition run_remote_first : run :=
  Run (Call 1 (http_error 500 "Internal Server Error") 2)
      (Call 1 (fails_with (-32601) "method not found") 1)
      (Call 1 (returns four_pods) 3) (Call 1 (returns four_pods) 4).

(** One query fails, before the three that succeed. *)
Definition run_failure_early : run :=
  Run (Call 1 (http_error 500 "Internal Server Error") 1)
      (Call 1 (returns four_pods) 2)
      (Call 1 (returns four_pods) 3) (Call 1 (returns four_pods) 4).

(** The same answers, the query that fails settling last and the three
    that succeed in the opposite order. *)
Definition run_failure_late : run :=
  Run (Call 2 (http_error 500 "Internal Server Error") 4)
      (Call 2 (returns four_pods) 3)
      (Call 2 (returns four_pods) 2) (Call 2 (returns four_pods) 1).

(** Four calls that return four different values, none with a [pods]
    list. *)
Definition run_of_odd_results : run :=
  Run (Call 7 (returns (VString "ok")) 0) (Call 7 (returns VNull) 0)
      (Call 7 (returns (VNumber (Int 3))) 0) (Call 7 (returns (VObject [])) 0).

(** A request with another id. *)
Definition with_id (req : request) (i : Z) : request :=
  Request (url req) (http_method req) (content_type req)
          (Payload (jsonrpc (body req)) i (method (body req)) (params (body req))).

(** The answer of the transport does not depend on the id of the request. *)
Definition ignores_id (c : call) : Prop :=
  forall req i, fetch c (with_id req i) = fetch c req.

(** The same call made at another reading of the clock. *)
Definition at_time (c : call) (t : Z) : call := Call t (fetch c) (settles c).

Definition reclocked (r : run) (clock : query -> Z) : run :=
  Run (at_time (query040 r) (clock Q040)) (at_time (query041 r) (clock Q041))
      (at_time (query042 r) (clock Q042)) (at_time (queryTotal r) (clock QTotal)).

(** ** The Discord client *)

(** A slash command as [SlashCommandBuilder] describes it. *)
Record slash_command : Type := SlashCommand {
  command_name : string;
  command_description : string
}.

(** The array handed to [client.application.commands.set] at startup. *)
Definition registered_commands : list slash_command :=
  [SlashCommand "pnodes" "Show pNodes stats (versions & total)"].

(** An interaction, as far as the handler looks at it: the answers of
    [isCommand()], [commandName], and what [deferReply()] and
    [editReply(content)] settle to. *)
Record interaction : Type := Interaction {
  isCommand : bool;
  commandName : string;
  deferReply : result unit;
  editReply : string -> result unit
}.

(** The calls made on an interaction, in order. *)
Inductive discord_call : Type :=
| DeferReply
| EditReply (content : string).

Definition discord (A : Type) : Type := list discord_call * result A.

Definition dret {A} (a : A) : discord A := ([], Ok a).

(** A call on the interaction, and what it settles to. *)
Definition dcall {A} (what : discord_call) (answer : result A) : discord A :=
  ([what], answer).

Definition dbind {A B} (m : discord A) (k : A -> discord B) : discord B :=
  match m with
  | (calls, Ok a) => let (calls', r) := k a in ((calls ++ calls')%list, r)
  | (calls, Throw e) => (calls, Throw e)
  end.

Declare Scope discord_scope.
Delimit Scope discord_scope with discord.
Notation "x <- m ;; k" := (dbind m (fun x => k))
  (at level 61, m at next level, right associativity) : discord_scope.
Notation "m ;; k" := (dbind m (fun _ => k))
  (at level 61, right associativity) : discord_scope.

(** The [InteractionCreate] handler; [r] is what the RPC calls meet when
    the handler comes to make them. *)
Definition onInteractionCreate (r : run) (i : interaction) : discord unit :=
  if negb (isCommand i) then dret tt
  else if String.eqb (commandName i) "pnodes" then
    (dcall DeferReply (deferReply i) ;;
     info <- ([], getPNodesInfo r) ;;
     dcall (EditReply info) (editReply i info))%discord
  else dret tt.

(** The text starts with [p]. *)
Definition starts_with (p s : string) : Prop := exists rest, s = p ++ rest.

(** The body of a response carries a JSON-RPC error of this code and
    message. *)
Definition error_body (data : value) (code : Z) (msg : string) : Prop :=
  exists fields detail,
    data = VObject fields
    /\ lookup "error" fields = Some (VObject detail)
    /\ lookup "code" detail = Some (VNumber (Int code))
    /\ lookup "message" detail = Some (VString msg).

(** A value that is neither [null], [undefined] nor an object. *)
Definition plain (v : value) : bool :=
  match v with
  | VBool _ | VNumber _ | VString _ | VArray _ => true
  | VUndefined | VNull | VObject _ => false
  end.

(** The report of four figures that are all 0. *)
Definition empty_report : string := report_text "0" "0" "0" "0".

(** * Properties *)

(** ** Strings *)

Lemma append_assoc (a b c : string) : (a ++ b) ++ c = a ++ b ++ c.
Proof. induction a as [|x a IH]; simpl; [reflexivity | now rewrite IH]. Qed.

Lemma append_empty_r (a : string) : a ++ "" = a.
Proof. induction a as [|x a IH]; simpl; [reflexivity | now rewrite IH]. Qed.

Lemma prefix_append (f s : string) :
  String.prefix f s = true <-> exists post, s = f ++ post.
Proof.
  revert s; induction f as [|a f IH]; intros s; simpl.
  - split; [intros _; now exists s | now destruct s].
  - destruct s as [|b s].
    + split; [discriminate | intros [post H]; discriminate].
    + simpl. destruct (ascii_dec a b) as [->|Hab].
      * rewrite IH. split; intros [post H]; exists post.
        -- now rewrite H.
        -- now injection H.
      * split; [discriminate | intros [post H]; injection H; intros; congruence].
Qed.

Lemma includes_unfold (s f : string) :
  includes s f =
  if String.prefix f s then true
  else match s with
       | EmptyString => false
       | String _ s' => includes s' f
       end.
Proof. now destruct s. Qed.

Lemma includes_contains (s f : string) : includes s f = true <-> contains s f.
Proof.
  split.
  - induction s as [|a s IH]; rewrite includes_unfold;
      destruct (String.prefix f _) eqn:Hp.
    + intros _. apply prefix_append in Hp as [post Hp]. now exists "", post.
    + discriminate.
    + intros _. apply prefix_append in Hp as [post Hp]. now exists "", post.
    + intros H. destruct (IH H) as (pre & post & ->). now exists (String a pre), post.
  - intros (pre & post & ->). induction pre as [|a pre IH]; rewrite includes_unfold.
    + assert (Hp : String.prefix f (f ++ post) = true) by (apply prefix_append; now exists post).
      simpl. now rewrite Hp.
    + cbn [append]. rewrite IH. now destruct (String.prefix f _).
Qed.

Lemma includes_false (s f : string) : includes s f = false <-> ~ contains s f.
Proof.
  rewrite <- includes_contains. destruct (includes s f); split; congruence.
Qed.

Lemma contains_empty (s : string) : contains s "".
Proof. now exists "", s. Qed.

Lemma contains_trans (s g f : string) : contains s g -> contains g f -> contains s f.
Proof.
  intros (pre & post & ->) (pre' & post' & ->).
  exists (pre ++ pre'), (post' ++ post).
  now rewrite !append_assoc.
Qed.

(** ** Conversion to text *)





Lemma matches_version_text (f : string) (pod : value) :
  matches f pod = rbind (version_text pod) (fun t => Ok (includes t f)).
Proof. unfold matches, version_text. now destruct (get pod Field.version). Qed.


(** ** [extractPods] *)

Lemma extractPods_unfold (v : value) :
  extractPods v =
  match v with
  | VObject fields =>
      match lookup "pods" fields with
      | Some (VArray items) => ([], Ok items)
      | _ => ([unexpected_shape v], Ok [])
      end
  | _ => ([unexpected_shape v], Ok [])
  end.
Proof.
  destruct v as [| |b|n|s|items|fields]; try reflexivity.
  - now destruct b.
  - destruct n as [z|t]; unfold extractPods; cbn [truthy]; [now destruct (negb (z =? 0)%Z) | now destruct (negb (t =? "NaN"))].
  - unfold extractPods; cbn [truthy]. now destruct (negb (s =? "")).
  - unfold extractPods; cbn. destruct (lookup "pods" fields) as [[| |b|n|s|items|fs]|]; reflexivity.
Qed.

Lemma has_pods_list_object (v : value) (items : list value) :
  has_pods_list v items <->
  exists fields, v = VObject fields /\ lookup "pods" fields = Some (VArray items).
Proof.
  unfold has_pods_list. split.
  - intros (_ & _ & H). destruct v as [| |b|n|s|l|fields]; simpl in H; try discriminate.
    exists fields. split; [reflexivity|].
    destruct (lookup "pods" fields); [now injection H as -> | discriminate].
  - intros (fields & -> & H). repeat split; try discriminate. simpl. now rewrite H.
Qed.

Lemma extractPods_pods_or_empty (v : value) :
  outcome (extractPods v) = Ok (pods_or_empty v).
Proof.
  rewrite extractPods_unfold. destruct v as [| |b|n|s|items|fields]; try reflexivity.
  simpl. now destruct (lookup "pods" fields) as [[| |b|n|s|items|fs]|].
Qed.

(** ** Counting *)

Ltac inv H := inversion H; subst; clear H.

Lemma countByFragment_unfold (r : value) (f : string) :
  countByFragment r f =
  (fst (extractPods r),
   rbind (filter_array (matches f) (pods_or_empty r))
         (fun kept => Ok (count_value (length kept)))).
Proof.
  unfold countByFragment. rewrite extractPods_unfold.
  destruct r as [| |b|n|s|items|fields]; try reflexivity.
  cbn [pods_or_empty].
  destruct (lookup "pods" fields) as [[| |b|n|s|items|fs]|]; try reflexivity.
  cbn. destruct (filter_array (matches f) items); reflexivity.
Qed.

Lemma filter_array_counts (f : string) (pods : list value) :
  Forall (fun pod => exists t, version_text pod = Ok t) pods ->
  exists kept, filter_array (matches f) pods = Ok kept /\ counts f pods (length kept).
Proof.
  induction 1 as [|pod rest [t Ht] _ (kept & Hk & Hc)].
  - exists []. split; [reflexivity | constructor].
  - cbn [filter_array]. rewrite matches_version_text, Ht, Hk. cbn [rbind].
    destruct (includes t f) eqn:Hin.
    + exists (pod :: kept). split; [reflexivity|].
      apply counts_hit with t; auto. now apply includes_contains.
    + exists kept. split; [reflexivity|].
      apply counts_miss with t; auto. now apply includes_false.
Qed.

Lemma filter_array_defined (f : string) (pods kept : list value) :
  filter_array (matches f) pods = Ok kept ->
  Forall (fun pod => exists t, version_text pod = Ok t) pods.
Proof.
  revert kept. induction pods as [|pod rest IH]; intros kept H; constructor.
  - cbn [filter_array] in H. rewrite matches_version_text in H.
    destruct (version_text pod) as [t|e]; [eauto | discriminate].
  - cbn [filter_array] in H. destruct (matches f pod); [|discriminate].
    cbn [rbind] in H. destruct (filter_array (matches f) rest) as [k|e]; [|discriminate].
    now apply IH with k.
Qed.

Lemma counts_unique (f : string) (pods : list value) (n m : nat) :
  counts f pods n -> counts f pods m -> n = m.
Proof.
  intros Hn. revert m. induction Hn as [|pod t rest n Ht Hc _ IH|pod t rest n Ht Hc _ IH];
    intros m Hm; inv Hm; try reflexivity;
    try (f_equal; now apply IH); try (now apply IH);
    match goal with
    | H1 : version_text ?p = Ok ?a, H2 : version_text ?p = Ok ?b |- _ =>
        rewrite H1 in H2; injection H2 as <-; contradiction
    end.
Qed.

Lemma counts_all (pods : list value) (n : nat) : counts "" pods n -> n = length pods.
Proof.
  induction 1 as [|pod t rest n _ _ _ IH|pod t rest n _ Hc _ _]; simpl.
  - reflexivity.
  - now rewrite IH.
  - destruct Hc. apply contains_empty.
Qed.

Lemma counts_none (f : string) (pods : list value) (n : nat) :
  (forall pod t, In pod pods -> version_text pod = Ok t -> ~ contains t f) ->
  counts f pods n -> n = 0.
Proof.
  intros Hno Hc. induction Hc as [|pod t rest n Ht Hc _ _|pod t rest n _ _ _ IH].
  - reflexivity.
  - destruct (Hno pod t); simpl; auto.
  - apply IH. intros p u Hin. apply Hno. now right.
Qed.

Lemma filter_array_monotone (f g : string) (pods kg : list value) :
  contains g f ->
  filter_array (matches g) pods = Ok kg ->
  exists kf, filter_array (matches f) pods = Ok kf /\ length kg <= length kf.
Proof.
  intros Hgf. revert kg. induction pods as [|pod rest IH]; intros kg H.
  - injection H as <-. now exists [].
  - cbn [filter_array] in *. rewrite matches_version_text in *.
    destruct (version_text pod) as [t|e]; [|discriminate]. cbn [rbind] in *.
    destruct (filter_array (matches g) rest) as [k|e]; [|discriminate].
    destruct (IH k eq_refl) as (kf & -> & Hle). cbn [rbind] in *.
    injection H as <-.
    destruct (includes t g) eqn:Hg.
    + assert (Hf : includes t f = true).
      { apply includes_contains. apply contains_trans with g; [|exact Hgf].
        now apply includes_contains. }
      rewrite Hf. exists (pod :: kf). split; [reflexivity | simpl; lia].
    + destruct (includes t f); eexists; (split; [reflexivity | simpl; lia]).
Qed.

(** ** [getTotalPods] *)

Lemma totalCount_unfold (r : value) :
  totalCount r =
  match numeric_total_count r with
  | Some n => ([], Ok (VNumber n))
  | None => (fst (extractPods r), Ok (count_value (length (pods_or_empty r))))
  end.
Proof.
  unfold totalCount. rewrite extractPods_unfold.
  destruct r as [| |b|n|s|items|fields]; try reflexivity.
  - now destruct b.
  - destruct n as [z|t]; cbn [truthy]; [now destruct (negb (z =? 0)%Z) | now destruct (negb (t =? "NaN"))].
  - cbn [truthy]. now destruct (negb (s =? "")).
  - cbn. destruct (lookup "total_count" fields) as [[| |b|n|s|items|fs]|]; cbn;
      destruct (lookup "pods" fields) as [[| |b'|n'|s'|items'|fs']|]; reflexivity.
Qed.

Lemma numeric_total_count_get (r : value) (n : number) :
  numeric_total_count r = Some n <-> get r Field.total_count = Ok (VNumber n).
Proof.
  destruct r as [| |b|m|s|items|fields]; simpl; try (split; discriminate).
  destruct (lookup "total_count" fields) as [[| |b|m|s|items|fs]|];
    split; intros H; try discriminate; now injection H as ->.
Qed.

(** ** What the queries give *)

Lemma count_is_number (c : call) (f : string) (v : value) :
  outcome (getPodsByVersion c f) = Ok v -> exists n, v = count_value n.
Proof.
  unfold getPodsByVersion, lift, bind, outcome.
  destruct (rpcCall c "get-pods" []) as [r|e]; [|discriminate].
  rewrite countByFragment_unfold. simpl.
  destruct (filter_array (matches f) (pods_or_empty r)) as [kept|e]; simpl;
    [|discriminate].
  intros H; injection H as <-. now exists (length kept).
Qed.

Lemma total_is_number (c : call) (v : value) :
  outcome (getTotalPods c) = Ok v -> exists n, v = VNumber n.
Proof.
  unfold getTotalPods, lift, bind, outcome.
  destruct (rpcCall c "get-pods" []) as [r|e]; [|discriminate].
  rewrite totalCount_unfold.
  destruct (numeric_total_count r) as [n|]; simpl; intros H; injection H as <-; eauto.
  unfold count_value; eauto.
Qed.

Lemma figure_is_number (r : run) (q : query) (v : value) :
  figure r q = Ok v -> exists n, v = VNumber n.
Proof.
  destruct q; simpl; intros H;
    try (apply count_is_number in H as [n ->]; unfold count_value; eauto).
  now apply total_is_number in H.
Qed.

(** A failure of the RPC call is the failure of the query. *)
Lemma answer_failure (r : run) (q : query) (e : exn) :
  answer r q = Throw e -> figure r q = Throw e.
Proof.
  unfold answer. destruct q; simpl;
    unfold getPodsByVersion, getTotalPods, lift, bind, outcome;
    now intros ->.
Qed.

(** A query is a function of the answer to its call. *)
Lemma figure_of_answer (r1 r2 : run) (q : query) :
  answer r1 q = answer r2 q -> figure r1 q = figure r2 q.
Proof.
  unfold answer. destruct q; simpl;
    unfold getPodsByVersion, getTotalPods, lift, bind, outcome;
    now intros ->.
Qed.

(** ** [Promise.all] *)

Lemma first_rejection_none {A} (ps : list (promise A)) :
  first_rejection ps = None -> Forall (fun p => exists a, settled p = Ok a) ps.
Proof.
  induction ps as [|p rest IH]; intros H; [constructor|].
  simpl in H. destruct (settled p) as [a|e] eqn:Hp.
  - constructor; eauto.
  - destruct (first_rejection rest) as [[t' e']|]; [destruct (Nat.leb _ _)|];
      discriminate.
Qed.

Lemma first_rejection_earliest {A} (ps : list (promise A)) (t : nat) (e : exn) :
  first_rejection ps = Some (t, e) ->
  exists p, In p ps /\ settled p = Throw e /\ settled_at p = t
            /\ forall q e', In q ps -> settled q = Throw e' -> t <= settled_at q.
Proof.
  revert t e. induction ps as [|p rest IH]; intros t e H; [discriminate|].
  simpl in H. destruct (settled p) as [a|ep] eqn:Hp.
  - destruct (IH _ _ H) as (p' & Hin & Hs & Ht & Hmin).
    exists p'. repeat split; auto; [now right|].
    intros q e' [<-|Hq] Hq'; [congruence | eauto].
  - destruct (first_rejection rest) as [[t' e']|] eqn:Hr.
    + destruct (IH _ _ eq_refl) as (p' & Hin & Hs & Ht & Hmin).
      destruct (Nat.leb (settled_at p) t') eqn:Hle; injection H as <- <-.
      * apply Nat.leb_le in Hle. exists p. repeat split; auto; [now left|].
        intros q e'' [<-|Hq] Hq'; [lia|]. specialize (Hmin _ _ Hq Hq'). lia.
      * apply Nat.leb_gt in Hle. exists p'. repeat split; auto; [now right|].
        intros q e'' [<-|Hq] Hq'; [lia | eauto].
    + injection H as <- <-. exists p. repeat split; auto; [now left|].
      intros q e'' [<-|Hq] Hq'; [lia|].
      assert (Hall : Forall (fun p => exists a, settled p = Ok a) rest)
        by now apply first_rejection_none.
      rewrite Forall_forall in Hall. destruct (Hall _ Hq) as [a Ha]. congruence.
Qed.

Lemma first_rejection_some {A} (ps : list (promise A)) (p : promise A) (e : exn) :
  In p ps -> settled p = Throw e -> exists t e', first_rejection ps = Some (t, e').
Proof.
  intros Hin Hp. destruct (first_rejection ps) as [[t e']|] eqn:H; [eauto|].
  apply first_rejection_none in H. rewrite Forall_forall in H.
  destruct (H _ Hin) as [a Ha]. congruence.
Qed.

(** ** [getPNodesInfo] *)

Lemma getPNodesInfo_rejected (r : run) (t : nat) (e : exn) :
  first_rejection (queries r) = Some (t, e) ->
  getPNodesInfo r = Ok ("Error retrieving data: " ++ message e).
Proof.
  intros H. unfold getPNodesInfo, Promise_all.
  change [Promise _ _; Promise _ _; Promise _ _; Promise _ _] with (queries r).
  now rewrite H.
Qed.

Lemma getPNodesInfo_fulfilled (r : run) (n040 n041 n042 ntotal : number) :
  figure r Q040 = Ok (VNumber n040) ->
  figure r Q041 = Ok (VNumber n041) ->
  figure r Q042 = Ok (VNumber n042) ->
  figure r QTotal = Ok (VNumber ntotal) ->
  getPNodesInfo r =
  Ok (report_text (number_to_string n040) (number_to_string n041)
                  (number_to_string n042) (number_to_string ntotal)).
Proof.
  simpl. intros H0 H1 H2 H3. unfold getPNodesInfo, Promise_all.
  cbn [first_rejection fulfilled settled settled_at].
  now rewrite H0, H1, H2, H3.
Qed.

Lemma in_queries (r : run) (p : promise value) :
  In p (queries r) <-> exists q, p = settled_query r q.
Proof.
  unfold queries. rewrite in_map_iff. split.
  - intros (q & <- & _). now exists q.
  - intros (q & ->). exists q. split; [reflexivity|]. destruct q; simpl; tauto.
Qed.

(** Either every query gives a number or some rejection comes first. *)
Lemma queries_settle (r : run) :
  (exists t e, first_rejection (queries r) = Some (t, e))
  \/ (forall q, exists n, figure r q = Ok (VNumber n)).
Proof.
  destruct (first_rejection (queries r)) as [[t e]|] eqn:H; [left; eauto|right].
  apply first_rejection_none in H. rewrite Forall_forall in H.
  intros q. destruct (H (settled_query r q)) as [v Hv].
  - apply in_queries. now exists q.
  - simpl in Hv. destruct (figure_is_number _ _ _ Hv) as [n ->]. eauto.
Qed.

(** Two lists of settled promises that agree outcome by outcome, and
    whose rejected promises settle in the same order, give the same
    values, or failures with the same message. *)
Lemma first_rejection_same_order (ps qs : list (promise value)) :
  Forall2 (fun p q => same_outcome (settled p) (settled q)) ps qs ->
  (forall p q p' q', In (p, q) (combine ps qs) -> In (p', q') (combine ps qs) ->
     (exists e, settled p = Throw e) -> (exists e, settled p' = Throw e) ->
     Nat.leb (settled_at p) (settled_at p') = Nat.leb (settled_at q) (settled_at q')) ->
  match first_rejection ps, first_rejection qs with
  | None, None => True
  | Some (t, e), Some (t', e') =>
      message e = message e'
      /\ exists p q, In (p, q) (combine ps qs) /\ settled p = Throw e
                     /\ settled_at p = t /\ settled_at q = t'
  | _, _ => False
  end.
Proof.
  induction 1 as [|p q ps qs Hpq Hrest IH]; intros Hord; [exact I|].
  assert (IH' := IH (fun a b a' b' Ha Hb =>
                       Hord a b a' b' (or_intror Ha) (or_intror Hb))).
  clear IH. cbn [first_rejection]. unfold same_outcome in Hpq.
  destruct (settled p) as [x|e] eqn:Hp, (settled q) as [y|e']; try contradiction.
  - destruct (first_rejection ps) as [[t1 e1]|], (first_rejection qs) as [[t2 e2]|];
      auto. destruct IH' as (Hm & a & b & Hin & Hs & Ha & Hb).
    split; [exact Hm|]. exists a, b. split; [now right | auto].
  - destruct (first_rejection ps) as [[t1 e1]|], (first_rejection qs) as [[t2 e2]|];
      try contradiction.
    + destruct IH' as (Hm & a & b & Hin & Hs & <- & <-).
      rewrite (Hord p q a b (or_introl eq_refl) (or_intror Hin)
                 (ex_intro _ e Hp) (ex_intro _ e1 Hs)).
      destruct (Nat.leb (settled_at q) (settled_at b)).
      * split; [exact Hpq|]. exists p, q. split; [now left | auto].
      * split; [exact Hm|]. exists a, b. split; [now right | auto].
    + split; [exact Hpq|]. exists p, q. split; [now left | auto].
Qed.

Lemma fulfilled_same (ps qs : list (promise value)) :
  Forall2 (fun p q => same_outcome (settled p) (settled q)) ps qs ->
  fulfilled ps = fulfilled qs.
Proof.
  induction 1 as [|p q ps qs Hpq _ IH]; [reflexivity|].
  cbn [fulfilled]. unfold same_outcome in Hpq.
  destruct (settled p), (settled q); try contradiction; congruence.
Qed.

Lemma same_outcome_figure (r1 r2 : run) (q : query) :
  same_outcome (answer r1 q) (answer r2 q) -> same_outcome (figure r1 q) (figure r2 q).
Proof.
  intros H. unfold same_outcome in H.
  destruct (answer r1 q) as [x|e] eqn:H1, (answer r2 q) as [y|e'] eqn:H2;
    try contradiction.
  - subst y. rewrite (figure_of_answer r1 r2 q) by congruence.
    unfold same_outcome. now destruct (figure r2 q).
  - apply answer_failure in H1, H2. now rewrite H1, H2.
Qed.

(** ** Line breaks *)

Lemma multiline_cons (a : ascii) (s : string) :
  a <> ascii_of_nat 10 -> (multiline (String a s) <-> multiline s).
Proof.
  intros Ha. unfold multiline, contains, newline. split.
  - intros (pre & post & H). destruct pre as [|b pre]; simpl in H.
    + injection H as H _. destruct (Ha H).
    + injection H as _ H. now exists pre, post.
  - intros (pre & post & ->). now exists (String a pre), post.
Qed.

Lemma error_line_multiline (m : string) :
  multiline ("Error retrieving data: " ++ m) <-> multiline m.
Proof.
  cbn [append]. repeat (rewrite multiline_cons by discriminate). reflexivity.
Qed.

(** ** [rpcCall] *)

Lemma rpcCall_unfold (c : call) (m : string) (ps : list value) :
  rpcCall c m ps =
  rbind (fetch c (request_of c m ps)) (fun res =>
    if negb (ok res) then
      Throw (Error ("RPC request failed: " ++ number_to_string (Int (status res))
                      ++ " " ++ statusText res))
    else
      rbind (json res) (fun data =>
      rbind (get data Field.error) (fun err =>
        if truthy err then
          rbind (get err Field.code) (fun code =>
          rbind (to_string code) (fun code_text =>
          rbind (get err Field.message) (fun msg =>
          rbind (to_string msg) (fun msg_text =>
            Throw (Error ("RPC error (" ++ code_text ++ "): " ++ msg_text))))))
        else get data Field.result))).
Proof. reflexivity. Qed.

Lemma truthy_get (v : value) (f : Field.t) :
  truthy v = true -> exists x, get v f = Ok x.
Proof.
  destruct v as [| |b|n|s|items|fields]; simpl; try discriminate; eauto.
  intros _. destruct (lookup (Field.name f) fields); eauto.
Qed.

(** A truthy [error] field always ends the call with a failure. *)
Lemma remote_error_raises (err : value) :
  truthy err = true ->
  exists e,
    rbind (get err Field.code) (fun code =>
    rbind (to_string code) (fun code_text =>
    rbind (get err Field.message) (fun msg =>
    rbind (to_string msg) (fun msg_text =>
      Throw (Error ("RPC error (" ++ code_text ++ "): " ++ msg_text)))))) = @Throw value e.
Proof.
  intros Ht.
  destruct (truthy_get err Field.code Ht) as [code ->].
  destruct (truthy_get err Field.message Ht) as [msg ->]. cbn [rbind].
  destruct (to_string code); cbn [rbind]; [|eauto].
  destruct (to_string msg); cbn [rbind]; eauto.
Qed.

Lemma filter_array_failure (f g : string) (pods : list value) (e : exn) :
  filter_array (matches f) pods = Throw e -> filter_array (matches g) pods = Throw e.
Proof.
  induction pods as [|pod rest IH]; [discriminate|].
  cbn [filter_array]. rewrite !matches_version_text.
  destruct (version_text pod) as [t|e']; cbn [rbind]; [|auto].
  destruct (filter_array (matches f) rest) as [k|e'']; cbn [rbind]; [discriminate|].
  intros H. injection H as ->. now rewrite (IH eq_refl).
Qed.

Lemma getPodsByVersion_answer (c : call) (r : value) (f : string) :
  rpcCall c "get-pods" [] = Ok r -> getPodsByVersion c f = countByFragment r f.
Proof.
  intros H. unfold getPodsByVersion, lift, bind. rewrite H.
  destruct (countByFragment r f). reflexivity.
Qed.

Lemma getTotalPods_answer (c : call) (r : value) :
  rpcCall c "get-pods" [] = Ok r -> getTotalPods c = totalCount r.
Proof.
  intros H. unfold getTotalPods, lift, bind. rewrite H.
  destruct (totalCount r). reflexivity.
Qed.

(** * The claims *)

(** C1 (amended). For every RPC result whose [pods] field is a list and
    whose entries all have a version text (none is [null], none has a
    version [String] cannot convert), and for every fragment [f], the
    counting step of [getPodsByVersion] returns exactly the number of
    entries whose version text contains [f]; for the empty fragment that
    is the length of the list, and for a fragment that occurs in no
    version text it is 0. *)
Theorem count_by_fragment_exact
  (c : call) (r : value) (pods : list value) (f : string) :
  rpcCall c "get-pods" [] = Ok r ->
  has_pods_list r pods ->
  Forall (fun pod => exists t, version_text pod = Ok t) pods ->
  exists n,
    countByFragment r f = ([], Ok (count_value n))
    /\ getPodsByVersion c f = ([], Ok (count_value n))
    /\ counts f pods n
    /\ (forall m, counts f pods m -> m = n)
    /\ (f = "" -> n = length pods)
    /\ ((forall pod t, In pod pods -> version_text pod = Ok t -> ~ contains t f) -> n = 0).
Proof.
  intros Hcall Hpods Htext.
  apply has_pods_list_object in Hpods as (fields & -> & Hl).
  destruct (filter_array_counts f pods Htext) as (kept & Hk & Hc).
  assert (Hcount : countByFragment (VObject fields) f = ([], Ok (count_value (length kept)))).
  { rewrite countByFragment_unfold, extractPods_unfold. cbn [pods_or_empty].
    rewrite Hl, Hk. reflexivity. }
  exists (length kept). repeat split; auto.
  - now rewrite (getPodsByVersion_answer c _ f Hcall).
  - intros m Hm. now apply counts_unique with f pods.
  - intros ->. now apply counts_all.
  - intros Hno. now apply counts_none with f pods.
Qed.

Lemma count_by_fragment_exact_witness :
  rpcCall (Call 7 (returns four_pods) 0) "get-pods" [] = Ok four_pods
  /\ has_pods_list four_pods [pod "0.4.0"; pod "0.4.1"; pod "0.4.1"; pod "0.4.2"]
  /\ exists n,
       countByFragment four_pods "0.4.1" = ([], Ok (count_value n))
       /\ getPodsByVersion (Call 7 (returns four_pods) 0) "0.4.1" = ([], Ok (count_value n))
       /\ counts "0.4.1" [pod "0.4.0"; pod "0.4.1"; pod "0.4.1"; pod "0.4.2"] n.
Proof.
  assert (Hp : has_pods_list four_pods [pod "0.4.0"; pod "0.4.1"; pod "0.4.1"; pod "0.4.2"])
    by (repeat split; discriminate).
  split; [reflexivity|]. split; [exact Hp|].
  destruct (count_by_fragment_exact (Call 7 (returns four_pods) 0) four_pods
              [pod "0.4.0"; pod "0.4.1"; pod "0.4.1"; pod "0.4.2"] "0.4.1"
              eq_refl Hp) as (n & H1 & H2 & H3 & _).
  - repeat constructor; eexists; reflexivity.
  - exists n. auto.
Defined.

(** C1, as stated, fails: a [pods] list of length 2 whose second entry is
    [null]; the count for the empty fragment is a [TypeError], not 2. *)
Lemma count_raises_on_null_entry :
  has_pods_list pods_with_null [pod "0.4.1"; VNull]
  /\ countByFragment pods_with_null "" =
     ([], Throw (TypeError "Cannot read properties of null (reading 'version')")).
Proof. split; [repeat split; discriminate | reflexivity]. Qed.

(** C2. [getTotalPods] returns the [total_count] field of the RPC result
    whenever that field is a number, whatever the length of the [pods]
    list; otherwise it returns the length of the list [extractPods] gives,
    which is the [pods] field when it is a list and the empty list when it
    is not. *)
Theorem total_count_preferred (c : call) (r : value) :
  rpcCall c "get-pods" [] = Ok r ->
  (forall n, get r Field.total_count = Ok (VNumber n) ->
             getTotalPods c = ([], Ok (VNumber n)))
  /\ ((forall n, get r Field.total_count <> Ok (VNumber n)) ->
      exists log,
        extractPods r = (log, Ok (pods_or_empty r))
        /\ getTotalPods c = (log, Ok (count_value (length (pods_or_empty r))))).
Proof.
  intros Hcall. rewrite (getTotalPods_answer c r Hcall), totalCount_unfold. split.
  - intros n Hn. apply numeric_total_count_get in Hn. now rewrite Hn.
  - intros Hno. destruct (numeric_total_count r) as [n|] eqn:Hn.
    + apply numeric_total_count_get in Hn. now destruct (Hno n).
    + exists (fst (extractPods r)). split; [|reflexivity].
      pose proof (extractPods_pods_or_empty r) as H. unfold outcome in H.
      destruct (extractPods r) as [log res]. simpl in *. now rewrite H.
Qed.

Lemma total_count_preferred_witness :
  rpcCall (Call 7 (returns diverging_total) 0) "get-pods" [] = Ok diverging_total
  /\ length (pods_or_empty diverging_total) = 1
  /\ getTotalPods (Call 7 (returns diverging_total) 0) = ([], Ok (VNumber (Int 7))).
Proof.
  split; [reflexivity|]. split; [reflexivity|].
  exact (proj1 (total_count_preferred (Call 7 (returns diverging_total) 0)
                  diverging_total eq_refl) (Int 7) eq_refl).
Defined.

(** C6. [extractPods] never raises: it returns the [pods] field of its
    input exactly when the input is not null and that field is a list, and
    otherwise, as for [undefined] and for the empty object, it prints a
    diagnostic and returns the empty list. *)
Theorem extractPods_total (v : value) :
  (exists log items, extractPods v = (log, Ok items))
  /\ (forall items, has_pods_list v items -> extractPods v = ([], Ok items))
  /\ ((forall items, ~ has_pods_list v items) ->
      extractPods v = ([unexpected_shape v], Ok []))
  /\ extractPods VUndefined = ([unexpected_shape VUndefined], Ok [])
  /\ extractPods (VObject []) = ([unexpected_shape (VObject [])], Ok []).
Proof.
  repeat split; try reflexivity.
  - rewrite extractPods_unfold. destruct v as [| |b|n|s|items|fields]; eauto.
    destruct (lookup "pods" fields) as [[| |b|n|s|items|fs]|]; eauto.
  - intros items H. apply has_pods_list_object in H as (fields & -> & Hl).
    rewrite extractPods_unfold. now rewrite Hl.
  - intros Hno. rewrite extractPods_unfold.
    destruct v as [| |b|n|s|items|fields]; try reflexivity.
    destruct (lookup "pods" fields) as [[| |b|n|s|items|fs]|] eqn:Hl; try reflexivity.
    destruct (Hno items). apply has_pods_list_object. eauto.
Qed.

Lemma extractPods_total_witness :
  has_pods_list diverging_total [pod "0.4.1"]
  /\ extractPods diverging_total = ([], Ok [pod "0.4.1"]).
Proof.
  assert (Hp : has_pods_list diverging_total [pod "0.4.1"])
    by (repeat split; discriminate).
  split; [exact Hp|].
  exact (proj1 (proj2 (extractPods_total diverging_total)) [pod "0.4.1"] Hp).
Defined.

(** C8. Counting is monotone in the substring order: if [f] occurs in [g],
    then on every RPC result the count for [f] is at least the count for
    [g] (the two counts exist together, a list on which one query raises
    makes the other raise the same error).  So the buckets overlap: a pod
    of version 0.4.10 is counted under 0.4.1, and the three counts of a
    report need not add up to the number of pods. *)
Theorem count_monotone :
  (forall (r : value) (f g : string),
      contains g f ->
      (exists nf ng,
          outcome (countByFragment r f) = Ok (count_value nf)
          /\ outcome (countByFragment r g) = Ok (count_value ng)
          /\ ng <= nf)
      \/ (exists e,
             outcome (countByFragment r f) = Throw e
             /\ outcome (countByFragment r g) = Throw e))
  /\ (outcome (countByFragment overlapping_pods "0.4.0") = Ok (count_value 0)
      /\ outcome (countByFragment overlapping_pods "0.4.1") = Ok (count_value 1)
      /\ outcome (countByFragment overlapping_pods "0.4.2") = Ok (count_value 0)
      /\ outcome (totalCount overlapping_pods) = Ok (count_value 2))
  /\ (outcome (countByFragment (VObject [("pods", VArray [pod "0.4.0-0.4.1"])]) "0.4.0")
        = Ok (count_value 1)
      /\ outcome (countByFragment (VObject [("pods", VArray [pod "0.4.0-0.4.1"])]) "0.4.1")
        = Ok (count_value 1)).
Proof.
  split; [|repeat split; reflexivity].
  intros r f g Hgf. rewrite !countByFragment_unfold. unfold outcome. cbn [snd].
  destruct (filter_array (matches g) (pods_or_empty r)) as [kg|e] eqn:Hg.
  - destruct (filter_array_monotone f g _ kg Hgf Hg) as (kf & -> & Hle).
    left. exists (length kf), (length kg). auto.
  - right. exists e. rewrite (filter_array_failure g f _ e Hg). auto.
Qed.

Lemma count_monotone_witness :
  contains "0.4.10" "0.4.1"
  /\ ((exists nf ng,
          outcome (countByFragment overlapping_pods "0.4.1") = Ok (count_value nf)
          /\ outcome (countByFragment overlapping_pods "0.4.10") = Ok (count_value ng)
          /\ ng <= nf)
      \/ (exists e,
             outcome (countByFragment overlapping_pods "0.4.1") = Throw e
             /\ outcome (countByFragment overlapping_pods "0.4.10") = Throw e)).
Proof.
  assert (H : contains "0.4.10" "0.4.1") by (exists "", "0"; reflexivity).
  split; [exact H|].
  exact (proj1 count_monotone overlapping_pods "0.4.1" "0.4.10" H).
Defined.




(** ** Two runs compared *)

Lemma same_outcome_refl (a : result value) : same_outcome a a.
Proof. now destruct a. Qed.

Lemma getPNodesInfo_same (r1 r2 : run) :
  (forall q, same_outcome (figure r1 q) (figure r2 q)) ->
  same_order r1 r2 ->
  getPNodesInfo r1 = getPNodesInfo r2.
Proof.
  intros Hfig Hord.
  assert (HF : Forall2 (fun p q => same_outcome (settled p) (settled q))
                       (queries r1) (queries r2)).
  { unfold queries. cbn [map]. repeat constructor; apply Hfig. }
  assert (HO : forall p q p' q',
             In (p, q) (combine (queries r1) (queries r2)) ->
             In (p', q') (combine (queries r1) (queries r2)) ->
             (exists e, settled p = Throw e) -> (exists e, settled p' = Throw e) ->
             Nat.leb (settled_at p) (settled_at p') = Nat.leb (settled_at q) (settled_at q')).
  { intros p q p' q' H H'. unfold queries in H, H'. cbn [map combine In] in H, H'.
    repeat (destruct H as [H|H]; [injection H as <- <-|]); try contradiction;
    repeat (destruct H' as [H'|H']; [injection H' as <- <-|]); try contradiction;
    apply Hord. }
  pose proof (first_rejection_same_order _ _ HF HO) as H.
  pose proof (fulfilled_same _ _ HF) as Hv.
  unfold getPNodesInfo, Promise_all.
  change [Promise (settles (query040 r1)) _; _; _; _] with (queries r1).
  change [Promise (settles (query040 r2)) _; _; _; _] with (queries r2).
  destruct (first_rejection (queries r1)) as [[t e]|],
           (first_rejection (queries r2)) as [[t' e']|]; try contradiction.
  - destruct H as [Hm _]. cbn [rbind try_catch]. now rewrite Hm.
  - now rewrite Hv.
Qed.

Lemma same_order_refl (r : run) : same_order r r.
Proof. now intros q q' _ _. Qed.

Lemma rpcCall_at_time (c : call) (t : Z) (m : string) (ps : list value) :
  ignores_id c -> rpcCall (at_time c t) m ps = rpcCall c m ps.
Proof.
  intros H. rewrite !rpcCall_unfold.
  change (fetch (at_time c t) (request_of (at_time c t) m ps))
    with (fetch c (with_id (request_of c m ps) t)).
  now rewrite H.
Qed.

Lemma answer_reclocked (r : run) (clock : query -> Z) (q : query) :
  (forall q', ignores_id (call_of r q')) -> answer (reclocked r clock) q = answer r q.
Proof.
  intros H. unfold answer. specialize (H q).
  destruct q; cbn [call_of reclocked query040 query041 query042 queryTotal] in *;
    now apply rpcCall_at_time.
Qed.

(** C4 (amended). [rpcCall] raises in these cases and no other: the
    transport fails, and the call fails the same way; the HTTP status is
    not a success, and the failure carries the status code and the reason
    phrase; the body cannot be read, or is [null]; the [error] field of
    the body is truthy, and the failure carries its code and its message
    whenever both convert to text.  Otherwise, also when the [error] field
    is present and falsy, the call returns exactly the [result] field,
    whatever its shape. *)
Theorem rpcCall_outcomes (c : call) (m : string) (ps : list value) :
  (forall e, fetch c (request_of c m ps) = Throw e -> rpcCall c m ps = Throw e)
  /\ (forall res,
         fetch c (request_of c m ps) = Ok res -> ok res = false ->
         rpcCall c m ps =
         Throw (Error ("RPC request failed: " ++ number_to_string (Int (status res))
                         ++ " " ++ statusText res)))
  /\ (forall res e,
         fetch c (request_of c m ps) = Ok res -> ok res = true ->
         json res = Throw e -> rpcCall c m ps = Throw e)
  /\ (forall res,
         fetch c (request_of c m ps) = Ok res -> ok res = true ->
         json res = Ok VNull ->
         rpcCall c m ps = Throw (TypeError "Cannot read properties of null (reading 'error')"))
  /\ (forall res data err,
         fetch c (request_of c m ps) = Ok res -> ok res = true ->
         json res = Ok data -> get data Field.error = Ok err -> truthy err = true ->
         (exists e, rpcCall c m ps = Throw e)
         /\ forall code msg code_text msg_text,
             get err Field.code = Ok code -> to_string code = Ok code_text ->
             get err Field.message = Ok msg -> to_string msg = Ok msg_text ->
             rpcCall c m ps = Throw (Error ("RPC error (" ++ code_text ++ "): " ++ msg_text)))
  /\ (forall x,
         rpcCall c m ps = Ok x <->
         exists res data err,
           fetch c (request_of c m ps) = Ok res /\ ok res = true
           /\ json res = Ok data /\ get data Field.error = Ok err
           /\ truthy err = false /\ get data Field.result = Ok x).
Proof.
  rewrite rpcCall_unfold.
  split; [|split; [|split; [|split; [|split]]]].
  - now intros e ->.
  - intros res -> Hok. cbn [rbind]. now rewrite Hok.
  - intros res e -> Hok Hj. cbn [rbind]. rewrite Hok. cbn [negb]. now rewrite Hj.
  - intros res -> Hok Hj. cbn [rbind]. rewrite Hok. cbn [negb]. now rewrite Hj.
  - intros res data err -> Hok Hj He Ht. cbn [rbind]. rewrite Hok. cbn [negb].
    rewrite Hj. cbn [rbind]. rewrite He. cbn [rbind]. rewrite Ht. split.
    + now apply remote_error_raises.
    + intros code msg ct mt -> Hct -> Hmt. cbn [rbind]. rewrite Hct. cbn [rbind].
      now rewrite Hmt.
  - intros x. split.
    + intros H. destruct (fetch c (request_of c m ps)) as [res|e]; [|discriminate].
      cbn [rbind] in H. destruct (ok res) eqn:Hok; [|discriminate]. cbn [negb] in H.
      destruct (json res) as [data|e] eqn:Hj; [|discriminate]. cbn [rbind] in H.
      destruct (get data Field.error) as [err|e] eqn:He; [|discriminate].
      cbn [rbind] in H. destruct (truthy err) eqn:Ht.
      * destruct (remote_error_raises err Ht) as [e Hr]. rewrite Hr in H. discriminate.
      * exists res, data, err. auto 10.
    + intros (res & data & err & -> & Hok & Hj & He & Ht & Hr). cbn [rbind].
      rewrite Hok. cbn [negb]. rewrite Hj. cbn [rbind]. rewrite He. cbn [rbind].
      now rewrite Ht.
Qed.

Lemma rpcCall_outcomes_witness :
  ok (Response false 503 "Service Unavailable" (Ok VNull)) = false
  /\ rpcCall (Call 7 (http_error 503 "Service Unavailable") 0) "get-pods" []
     = Throw (Error "RPC request failed: 503 Service Unavailable")
  /\ (exists x, rpcCall (Call 7 (returns four_pods) 0) "get-pods" [] = Ok x).
Proof.
  split; [reflexivity|]. split.
  - exact (proj1 (proj2 (rpcCall_outcomes (Call 7 (http_error 503 "Service Unavailable") 0)
                           "get-pods" []))
             (Response false 503 "Service Unavailable" (Ok VNull)) eq_refl eq_refl).
  - exists four_pods. reflexivity.
Defined.

(** C4, as stated, fails: a body with an [error] field that is [null] is
    answered with the [result] field, not with a failure; and a body that
    is [null], under a success status and with no [error] field, makes the
    call raise, as does a transport that cannot connect. *)
Lemma rpcCall_outside_the_two_cases :
  has_error_field (VObject [("error", VNull); ("result", VNumber (Int 7))])
  /\ rpcCall (Call 7 (replies (VObject [("error", VNull); ("result", VNumber (Int 7))])) 0)
             "get-pods" [] = Ok (VNumber (Int 7))
  /\ ~ has_error_field VNull
  /\ rpcCall (Call 7 (replies VNull) 0) "get-pods" []
     = Throw (TypeError "Cannot read properties of null (reading 'error')")
  /\ rpcCall (Call 7 (fun _ => Throw (FetchError "connect ECONNREFUSED 127.0.0.1:6000")) 0)
             "get-pods" [] = Throw (FetchError "connect ECONNREFUSED 127.0.0.1:6000").
Proof.
  repeat split.
  - now exists [("error", VNull); ("result", VNumber (Int 7))], VNull.
  - intros (fields & x & H & _). discriminate.
Qed.

(** C3 (amended). [getPNodesInfo] never raises.  If any of the four RPC
    calls raises, it returns the text "Error retrieving data: " followed
    by the message of the failure that settled first among the queries
    that failed, and nothing else: no count of a query that succeeded.
    That text is one line whenever the message is. *)
Theorem report_never_raises (r : run) :
  (exists s, getPNodesInfo r = Ok s)
  /\ ((exists q e, answer r q = Throw e) ->
      exists q e,
        figure r q = Throw e
        /\ (forall q' e', figure r q' = Throw e' ->
                          settles (call_of r q) <= settles (call_of r q'))
        /\ getPNodesInfo r = Ok ("Error retrieving data: " ++ message e)
        /\ (multiline ("Error retrieving data: " ++ message e) <-> multiline (message e))).
Proof.
  split.
  - destruct (queries_settle r) as [(t & e & H)|H].
    + rewrite (getPNodesInfo_rejected r t e H). eauto.
    + destruct (H Q040) as [n0 H0], (H Q041) as [n1 H1],
               (H Q042) as [n2 H2], (H QTotal) as [n3 H3].
      rewrite (getPNodesInfo_fulfilled r _ _ _ _ H0 H1 H2 H3). eauto.
  - intros (q0 & e0 & H0). apply answer_failure in H0.
    assert (Hin : In (settled_query r q0) (queries r)) by (apply in_queries; eauto).
    destruct (first_rejection_some _ _ e0 Hin H0) as (t & e & Hfr).
    destruct (first_rejection_earliest _ _ _ Hfr) as (p & Hp & Hs & Ht & Hmin).
    apply in_queries in Hp as [q ->]. exists q, e. repeat split.
    + exact Hs.
    + intros q' e' H'. cbn [settled_query settled_at] in Ht. rewrite Ht.
      apply (Hmin (settled_query r q') e'); [apply in_queries; eauto | exact H'].
    + exact (getPNodesInfo_rejected r t e Hfr).
    + apply error_line_multiline.
    + apply error_line_multiline.
Qed.

Lemma report_never_raises_witness :
  (exists q e, answer run_status_first q = Throw e)
  /\ exists q e,
       figure run_status_first q = Throw e
       /\ (forall q' e', figure run_status_first q' = Throw e' ->
                         settles (call_of run_status_first q)
                         <= settles (call_of run_status_first q'))
       /\ getPNodesInfo run_status_first = Ok ("Error retrieving data: " ++ message e)
       /\ (multiline ("Error retrieving data: " ++ message e) <-> multiline (message e)).
Proof.
  assert (H : exists q e, answer run_status_first q = Throw e)
    by (exists Q040; eexists; reflexivity).
  split; [exact H|].
  exact (proj2 (report_never_raises run_status_first) H).
Defined.

(** C3, as stated, fails: when the remote error message has two lines, so
    has the text returned. *)
Lemma report_with_line_break :
  answer run_with_long_message QTotal = Throw (Error ("RPC error (1): " ++ two_lines))
  /\ getPNodesInfo run_with_long_message
     = Ok ("Error retrieving data: RPC error (1): first line" ++ newline ++ "second line")
  /\ multiline ("Error retrieving data: RPC error (1): first line" ++ newline ++ "second line").
Proof.
  repeat split.
  now exists "Error retrieving data: RPC error (1): first line", "second line".
Qed.

(** C5. When every RPC call returns the four pods of versions 0.4.0,
    0.4.1, 0.4.1 and 0.4.2 with a total count of 4, the report shows 1 for
    0.4.0, 2 for 0.4.1, 1 for 0.4.2 and a total of 4. *)
Theorem report_of_four_pods (r : run) :
  (forall q, answer r q = Ok four_pods) ->
  getPNodesInfo r =
  Ok ("```ml" ++ newline ++
      "pNodes Version: Counts" ++ newline ++
      "       `0.4.0`:      1" ++ newline ++
      "       `0.4.1`:      2" ++ newline ++
      "       `0.4.2`:    1" ++ newline ++
      "         Total:    4" ++ newline ++
      "```").
Proof.
  intros H.
  rewrite (getPNodesInfo_fulfilled r (Int 1) (Int 2) (Int 1) (Int 4)).
  - reflexivity.
  - cbn [figure]. now rewrite (getPodsByVersion_answer (query040 r) _ "0.4.0" (H Q040)).
  - cbn [figure]. now rewrite (getPodsByVersion_answer (query041 r) _ "0.4.1" (H Q041)).
  - cbn [figure]. now rewrite (getPodsByVersion_answer (query042 r) _ "0.4.2" (H Q042)).
  - cbn [figure]. now rewrite (getTotalPods_answer (queryTotal r) _ (H QTotal)).
Qed.

Lemma report_of_four_pods_witness :
  (forall q, answer (same_call_four_times (Call 7 (returns four_pods) 0)) q = Ok four_pods)
  /\ getPNodesInfo (same_call_four_times (Call 7 (returns four_pods) 0)) =
     Ok ("```ml" ++ newline ++
         "pNodes Version: Counts" ++ newline ++
         "       `0.4.0`:      1" ++ newline ++
         "       `0.4.1`:      2" ++ newline ++
         "       `0.4.2`:    1" ++ newline ++
         "         Total:    4" ++ newline ++
         "```").
Proof.
  assert (H : forall q, answer (same_call_four_times (Call 7 (returns four_pods) 0)) q
                        = Ok four_pods) by (intros []; reflexivity).
  split; [exact H|].
  exact (report_of_four_pods (same_call_four_times (Call 7 (returns four_pods) 0)) H).
Defined.

(** C7. When the four queries succeed, their figures are three counts and
    a number, and the text returned is the fixed block: a fence, the
    heading, the counts for 0.4.0, 0.4.1 and 0.4.2 in that order, the
    total, a fence. *)
Theorem report_format (r : run) (v040 v041 v042 vtotal : value) :
  figure r Q040 = Ok v040 ->
  figure r Q041 = Ok v041 ->
  figure r Q042 = Ok v042 ->
  figure r QTotal = Ok vtotal ->
  exists (n040 n041 n042 : nat) (ntotal : number),
    v040 = count_value n040 /\ v041 = count_value n041 /\ v042 = count_value n042
    /\ vtotal = VNumber ntotal
    /\ getPNodesInfo r =
       Ok ("```ml" ++ newline ++
           "pNodes Version: Counts" ++ newline ++
           "       `0.4.0`:      " ++ number_to_string (Int (Z.of_nat n040)) ++ newline ++
           "       `0.4.1`:      " ++ number_to_string (Int (Z.of_nat n041)) ++ newline ++
           "       `0.4.2`:    " ++ number_to_string (Int (Z.of_nat n042)) ++ newline ++
           "         Total:    " ++ number_to_string ntotal ++ newline ++
           "```").
Proof.
  intros H0 H1 H2 H3.
  destruct (count_is_number _ _ _ H0) as [n0 ->].
  destruct (count_is_number _ _ _ H1) as [n1 ->].
  destruct (count_is_number _ _ _ H2) as [n2 ->].
  destruct (total_is_number _ _ H3) as [n3 ->].
  exists n0, n1, n2, n3. repeat split.
  exact (getPNodesInfo_fulfilled r _ _ _ _ H0 H1 H2 H3).
Qed.

Lemma report_format_witness :
  figure (same_call_four_times (Call 7 (returns diverging_total) 0)) Q040 = Ok (count_value 0)
  /\ figure (same_call_four_times (Call 7 (returns diverging_total) 0)) Q041 = Ok (count_value 1)
  /\ figure (same_call_four_times (Call 7 (returns diverging_total) 0)) Q042 = Ok (count_value 0)
  /\ figure (same_call_four_times (Call 7 (returns diverging_total) 0)) QTotal = Ok (VNumber (Int 7))
  /\ exists s, getPNodesInfo (same_call_four_times (Call 7 (returns diverging_total) 0)) = Ok s.
Proof.
  repeat (split; [reflexivity|]).
  destruct (report_format (same_call_four_times (Call 7 (returns diverging_total) 0))
              (count_value 0) (count_value 1) (count_value 0) (VNumber (Int 7))
              eq_refl eq_refl eq_refl eq_refl)
    as (n0 & n1 & n2 & n3 & _ & _ & _ & _ & H).
  eexists. exact H.
Defined.

(** Where the rejection [Promise.all] reports stands in the list: the
    rejected promises before it settle later, those after it no sooner. *)
Lemma first_rejection_position {A} (ps : list (promise A)) (t : nat) (e : exn) :
  first_rejection ps = Some (t, e) ->
  exists pre p post,
    ps = (pre ++ p :: post)%list /\ settled p = Throw e /\ settled_at p = t
    /\ (forall x e', In x pre -> settled x = Throw e' -> t < settled_at x)
    /\ (forall x e', In x post -> settled x = Throw e' -> t <= settled_at x).
Proof.
  revert t e. induction ps as [|p rest IH]; intros t e H; [discriminate|].
  cbn [first_rejection] in H. destruct (settled p) as [a|ep] eqn:Hp.
  - destruct (IH _ _ H) as (pre & w & post & -> & Hw & Ht & Hpre & Hpost).
    exists (p :: pre), w, post. repeat split; auto.
    intros x e' [<-|Hx] Hx'; [congruence | eauto].
  - destruct (first_rejection rest) as [[t' e']|] eqn:Hr.
    + destruct (Nat.leb (settled_at p) t') eqn:Hle; injection H as <- <-.
      * apply Nat.leb_le in Hle. exists [], p, rest. repeat split; auto.
        -- intros x e'' [].
        -- intros x e'' Hx Hx'.
           destruct (first_rejection_earliest _ _ _ Hr) as (_ & _ & _ & _ & Hmin).
           specialize (Hmin x e'' Hx Hx'). lia.
      * apply Nat.leb_gt in Hle.
        destruct (IH _ _ eq_refl) as (pre & w & post & -> & Hw & Ht & Hpre & Hpost).
        exists (p :: pre), w, post. repeat split; auto.
        intros x e'' [<-|Hx] Hx'; [lia | eauto].
    + injection H as <- <-. exists [], p, rest. repeat split; auto.
      * intros x e'' [].
      * intros x e'' Hx Hx'. apply first_rejection_none in Hr.
        rewrite Forall_forall in Hr. destruct (Hr x Hx) as [a Ha]. congruence.
Qed.

(** The rejection [Promise.all] reports is that of the query that settles
    first among those that fail. *)
Lemma first_rejection_settles_first (r : run) (t : nat) (e : exn) :
  first_rejection (queries r) = Some (t, e) ->
  exists q, figure r q = Throw e /\ settles_first r q.
Proof.
  intros H.
  destruct (first_rejection_position _ _ _ H) as (pre & p & post & Hl & Hp & Ht & Hpre & Hpost).
  unfold queries in Hl. cbn [map] in Hl.
  assert (Hq : exists q, p = settled_query r q
                         /\ (forall q' e', rank q' < rank q -> figure r q' = Throw e' ->
                                           t < settles (call_of r q'))
                         /\ (forall q' e', rank q < rank q' -> figure r q' = Throw e' ->
                                           t <= settles (call_of r q'))).
  { destruct pre as [|a [|b [|c [|d pre]]]]; cbn [app] in Hl.
    - injection Hl as <- <-. exists Q040. split; [reflexivity|]. split.
      + intros q' e' Hr. destruct q'; cbn [rank] in Hr; lia.
      + intros q' e' Hr Hf. apply (Hpost (settled_query r q') e'); [|exact Hf].
        destruct q'; cbn [rank] in Hr; try lia; cbn; tauto.
    - injection Hl as <- <- <-. exists Q041. split; [reflexivity|]. split.
      + intros q' e' Hr Hf. apply (Hpre (settled_query r q') e'); [|exact Hf].
        destruct q'; cbn [rank] in Hr; try lia. cbn. tauto.
      + intros q' e' Hr Hf. apply (Hpost (settled_query r q') e'); [|exact Hf].
        destruct q'; cbn [rank] in Hr; try lia; cbn; tauto.
    - injection Hl as <- <- <- <-. exists Q042. split; [reflexivity|]. split.
      + intros q' e' Hr Hf. apply (Hpre (settled_query r q') e'); [|exact Hf].
        destruct q'; cbn [rank] in Hr; try lia; cbn; tauto.
      + intros q' e' Hr Hf. apply (Hpost (settled_query r q') e'); [|exact Hf].
        destruct q'; cbn [rank] in Hr; try lia; cbn; tauto.
    - injection Hl as <- <- <- <- <-. exists QTotal. split; [reflexivity|]. split.
      + intros q' e' Hr Hf. apply (Hpre (settled_query r q') e'); [|exact Hf].
        destruct q'; cbn [rank] in Hr; try lia; cbn; tauto.
      + intros q' e' Hr. destruct q'; cbn [rank] in Hr; lia.
    - cbn in Hl. injection Hl as _ _ _ _ Hl. destruct pre; discriminate. }
  destruct Hq as (q & -> & Hbefore & Hafter). cbn [settled_query settled settled_at] in *.
  subst t. exists q. split; [exact Hp|]. split; [now exists e|].
  intros q' [e' Hf].
  destruct (Nat.lt_total (rank q') (rank q)) as [Hr|[Hr|Hr]].
  - left. now apply Hbefore with e'.
  - right. replace q' with q by (destruct q, q'; cbn in Hr; congruence || lia). lia.
  - specialize (Hafter q' e' Hr Hf). lia.
Qed.

Lemma settles_first_unique (r : run) (q q' : query) :
  settles_first r q -> settles_first r q' -> q = q'.
Proof.
  intros [Hf H] [Hf' H']. specialize (H q' Hf'). specialize (H' q Hf).
  assert (Hr : rank q = rank q') by lia.
  destruct q, q'; cbn in Hr; congruence.
Qed.

(** C10 (amended). The text is a function of the four RPC outcomes and of
    which failing query settles first: two runs whose calls return the
    same values, or raise failures with the same message, return the same
    text whenever the failures that settle first in them carry the same
    message; so they do whenever the queries that fail settle in the same
    order, whenever at most one query fails and whenever every query
    succeeds, whatever the order of the others.  The request id has no
    part in it: reading other clocks changes nothing when the transport
    answers without looking at the id. *)
Theorem report_deterministic (r1 r2 : run) :
  (forall q, same_outcome (answer r1 q) (answer r2 q)) ->
  ((forall q1 q2 e1 e2,
       settles_first r1 q1 -> settles_first r2 q2 ->
       figure r1 q1 = Throw e1 -> figure r2 q2 = Throw e2 ->
       message e1 = message e2) ->
   getPNodesInfo r1 = getPNodesInfo r2)
  /\ (same_order r1 r2 -> getPNodesInfo r1 = getPNodesInfo r2)
  /\ ((forall q q', fails r1 q -> fails r1 q' -> q = q') ->
      getPNodesInfo r1 = getPNodesInfo r2)
  /\ ((forall q, exists v, figure r1 q = Ok v) -> getPNodesInfo r1 = getPNodesInfo r2)
  /\ (forall clock, (forall q, ignores_id (call_of r1 q)) ->
                    getPNodesInfo (reclocked r1 clock) = getPNodesInfo r1).
Proof.
  intros Hans.
  assert (Hfig : forall q, same_outcome (figure r1 q) (figure r2 q))
    by (intros q; apply same_outcome_figure, Hans).
  assert (Hsuccess : (forall q, exists v, figure r1 q = Ok v) ->
                     getPNodesInfo r1 = getPNodesInfo r2).
  { intros Hok.
    assert (Hnum : forall q, exists n, figure r1 q = Ok (VNumber n)
                                       /\ figure r2 q = Ok (VNumber n)).
    { intros q. destruct (Hok q) as [v Hv]. specialize (Hfig q). rewrite Hv in Hfig.
      destruct (figure_is_number _ _ _ Hv) as [n ->]. exists n. split; [exact Hv|].
      unfold same_outcome in Hfig. destruct (figure r2 q); [now subst | contradiction]. }
    destruct (Hnum Q040) as (n0 & A0 & B0), (Hnum Q041) as (n1 & A1 & B1),
             (Hnum Q042) as (n2 & A2 & B2), (Hnum QTotal) as (n3 & A3 & B3).
    now rewrite (getPNodesInfo_fulfilled r1 _ _ _ _ A0 A1 A2 A3),
                (getPNodesInfo_fulfilled r2 _ _ _ _ B0 B1 B2 B3). }
  split; [|split; [|split; [|split]]].
  - intros Hfirst. destruct (queries_settle r1) as [(t1 & e1 & H1)|Hok].
    + destruct (first_rejection_settles_first r1 t1 e1 H1) as (q1 & Hq1 & Hs1).
      pose proof (Hfig q1) as Hq2. rewrite Hq1 in Hq2. unfold same_outcome in Hq2.
      destruct (figure r2 q1) as [v|e] eqn:Hr2; [contradiction|].
      assert (Hin : In (settled_query r2 q1) (queries r2)) by (apply in_queries; eauto).
      destruct (first_rejection_some _ _ e Hin Hr2) as (t2 & e2 & H2).
      destruct (first_rejection_settles_first r2 t2 e2 H2) as (q2 & Hq2' & Hs2).
      rewrite (getPNodesInfo_rejected r1 t1 e1 H1), (getPNodesInfo_rejected r2 t2 e2 H2).
      now rewrite (Hfirst q1 q2 e1 e2 Hs1 Hs2 Hq1 Hq2').
    + apply Hsuccess. intros q. destruct (Hok q) as [n Hn]. eauto.
  - now apply getPNodesInfo_same.
  - intros Hone. apply getPNodesInfo_same; [exact Hfig|].
    intros q q' Hq Hq'. rewrite (Hone q q' Hq Hq'). now rewrite !Nat.leb_refl.
  - exact Hsuccess.
  - intros clock Hid. apply getPNodesInfo_same.
    + intros q. apply same_outcome_figure.
      rewrite (answer_reclocked r1 clock q Hid). apply same_outcome_refl.
    + intros q q' _ _. now destruct q, q'.
Qed.

Lemma report_deterministic_witness :
  (forall q, same_outcome (answer run_failure_early q) (answer run_failure_late q))
  /\ same_order run_failure_early run_failure_late
  /\ settles (call_of run_failure_early Q041) < settles (call_of run_failure_early Q042)
  /\ settles (call_of run_failure_late Q042) < settles (call_of run_failure_late Q041)
  /\ getPNodesInfo run_failure_early = getPNodesInfo run_failure_late.
Proof.
  assert (Ha : forall q, same_outcome (answer run_failure_early q)
                                      (answer run_failure_late q))
    by (intros []; reflexivity).
  assert (Ho : same_order run_failure_early run_failure_late).
  { intros q q' [e He] [e' He']. destruct q; try discriminate He.
    destruct q'; try discriminate He'. reflexivity. }
  split; [exact Ha|]. split; [exact Ho|].
  split; [cbn; lia|]. split; [cbn; lia|].
  exact (proj1 (proj2 (report_deterministic run_failure_early run_failure_late Ha)) Ho).
Defined.

(** C10, as stated, fails: two runs in which the four calls give the same
    outcomes, the first two failing with different messages; the text
    carries the message of whichever failure settles first. *)
Lemma report_depends_on_settling_order :
  (forall q, answer run_status_first q = answer run_remote_first q)
  /\ getPNodesInfo run_status_first
     = Ok "Error retrieving data: RPC request failed: 500 Internal Server Error"
  /\ getPNodesInfo run_remote_first
     = Ok "Error retrieving data: RPC error (-32601): method not found"
  /\ getPNodesInfo run_status_first <> getPNodesInfo run_remote_first.
Proof.
  repeat split; try discriminate. now intros [].
Qed.

(** * Further properties of the counts *)

Lemma count_value_inj (n m : nat) : count_value n = count_value m -> n = m.
Proof. unfold count_value. intros H. injection H as H. now apply Nat2Z.inj. Qed.

Lemma count_outcome (r : value) (f : string) (v : value) :
  outcome (countByFragment r f) = Ok v ->
  exists kept, filter_array (matches f) (pods_or_empty r) = Ok kept
               /\ v = count_value (length kept).
Proof.
  rewrite countByFragment_unfold. unfold outcome. cbn [snd].
  destruct (filter_array (matches f) (pods_or_empty r)) as [kept|e]; [|discriminate].
  cbn [rbind]. intros H. injection H as <-. eauto.
Qed.

Lemma count_of_kept (r : value) (f : string) (kept : list value) :
  filter_array (matches f) (pods_or_empty r) = Ok kept ->
  outcome (countByFragment r f) = Ok (count_value (length kept)).
Proof.
  intros H. rewrite countByFragment_unfold. unfold outcome. cbn [snd]. now rewrite H.
Qed.

Lemma filter_array_length (keep : value -> result bool) (l kept : list value) :
  filter_array keep l = Ok kept -> length kept <= length l.
Proof.
  revert kept. induction l as [|x rest IH]; intros kept H.
  - injection H as <-. reflexivity.
  - cbn [filter_array] in H. destruct (keep x) as [b|e]; [|discriminate].
    cbn [rbind] in H. destruct (filter_array keep rest) as [k|e]; [|discriminate].
    cbn [rbind] in H. injection H as <-. specialize (IH k eq_refl).
    destruct b; simpl; lia.
Qed.

Lemma filter_array_app (keep : value -> result bool) (a b : list value) :
  filter_array keep (a ++ b)%list =
  rbind (filter_array keep a) (fun ka =>
  rbind (filter_array keep b) (fun kb => Ok (ka ++ kb)%list)).
Proof.
  induction a as [|x a IH]; cbn [app filter_array rbind].
  - now destruct (filter_array keep b).
  - destruct (keep x) as [c|e]; cbn [rbind]; [|reflexivity]. rewrite IH.
    destruct (filter_array keep a) as [ka|e]; cbn [rbind]; [|reflexivity].
    destruct (filter_array keep b) as [kb|e]; cbn [rbind]; [|reflexivity].
    now destruct c.
Qed.

Lemma filter_array_all (l : list value) :
  Forall (fun entry => exists t, version_text entry = Ok t) l ->
  filter_array (matches "") l = Ok l.
Proof.
  induction 1 as [|x rest [t Ht] _ IH]; [reflexivity|].
  cbn [filter_array]. rewrite matches_version_text, Ht, IH. cbn [rbind].
  assert (Hin : includes t "" = true) by apply includes_contains, contains_empty.
  now rewrite Hin.
Qed.

(** X1. A count never exceeds the number of entries of the [pods] list
    the call returned (0 when there is no such list). *)
Theorem count_at_most_length (c : call) (r : value) (f : string) (v : value) :
  rpcCall c "get-pods" [] = Ok r ->
  outcome (getPodsByVersion c f) = Ok v ->
  exists n, v = count_value n /\ n <= length (pods_or_empty r).
Proof.
  intros Hc. rewrite (getPodsByVersion_answer c r f Hc). intros H.
  apply count_outcome in H as (kept & Hk & ->).
  exists (length kept). split; [reflexivity|].
  now apply filter_array_length with (matches f).
Qed.

Lemma count_at_most_length_witness :
  rpcCall (Call 7 (returns four_pods) 0) "get-pods" [] = Ok four_pods
  /\ outcome (getPodsByVersion (Call 7 (returns four_pods) 0) "0.4.1") = Ok (count_value 2)
  /\ exists n, count_value 2 = count_value n /\ n <= length (pods_or_empty four_pods).
Proof.
  split; [reflexivity|]. split; [reflexivity|].
  exact (count_at_most_length (Call 7 (returns four_pods) 0) four_pods "0.4.1"
           (count_value 2) eq_refl eq_refl).
Defined.

(** X2. Counting is additive: when the [pods] list of a result is the
    list of one result followed by the list of another, its count for a
    fragment is the sum of their counts. *)
Theorem count_additive (ra rb rab : value) (f : string) (na nb : nat) :
  pods_or_empty rab = (pods_or_empty ra ++ pods_or_empty rb)%list ->
  outcome (countByFragment ra f) = Ok (count_value na) ->
  outcome (countByFragment rb f) = Ok (count_value nb) ->
  outcome (countByFragment rab f) = Ok (count_value (na + nb)).
Proof.
  intros Hab Ha Hb.
  apply count_outcome in Ha as (ka & Hka & Ea), Hb as (kb & Hkb & Eb).
  apply count_value_inj in Ea, Eb. subst na nb.
  rewrite <- length_app. apply count_of_kept.
  now rewrite Hab, filter_array_app, Hka, Hkb.
Qed.

Lemma count_additive_witness :
  pods_or_empty (VObject [("pods", VArray [pod "0.4.10"; pod "0.5.0"; pod "0.4.1"])])
  = (pods_or_empty overlapping_pods ++ pods_or_empty diverging_total)%list
  /\ outcome (countByFragment overlapping_pods "0.4.1") = Ok (count_value 1)
  /\ outcome (countByFragment diverging_total "0.4.1") = Ok (count_value 1)
  /\ outcome (countByFragment
                (VObject [("pods", VArray [pod "0.4.10"; pod "0.5.0"; pod "0.4.1"])]) "0.4.1")
     = Ok (count_value (1 + 1)).
Proof.
  repeat (split; [reflexivity|]).
  exact (count_additive overlapping_pods diverging_total
           (VObject [("pods", VArray [pod "0.4.10"; pod "0.5.0"; pod "0.4.1"])])
           "0.4.1" 1 1 eq_refl eq_refl eq_refl).
Defined.

Lemma filter_array_permutation (keep : value -> result bool) (l l' : list value) :
  Permutation l l' ->
  forall kept, filter_array keep l = Ok kept ->
  exists kept', filter_array keep l' = Ok kept' /\ Permutation kept kept'.
Proof.
  induction 1 as [|x l l' _ IH|x y l|l l' l'' _ IH1 _ IH2]; intros kept H.
  - exists kept. split; [exact H | apply Permutation_refl].
  - cbn [filter_array] in *. destruct (keep x) as [b|e]; [|discriminate].
    cbn [rbind] in *. destruct (filter_array keep l) as [k|e]; [|discriminate].
    destruct (IH k eq_refl) as (k' & -> & Hp). cbn [rbind] in *.
    injection H as <-. destruct b; eexists; (split; [reflexivity|]); auto.
  - cbn [filter_array] in *. destruct (keep y) as [b|e]; [|discriminate].
    cbn [rbind] in *. destruct (keep x) as [b'|e]; [|discriminate].
    cbn [rbind] in *. destruct (filter_array keep l) as [k|e]; [|discriminate].
    cbn [rbind] in *. injection H as <-.
    destruct b, b'; eexists; (split; [reflexivity|]);
      auto using Permutation_refl, perm_swap.
  - destruct (IH1 kept H) as (k' & H' & Hp'). destruct (IH2 k' H') as (k'' & H'' & Hp'').
    exists k''. split; [exact H''|]. now apply Permutation_trans with k'.
Qed.

(** X3. The count does not depend on the order of the entries: two
    results whose [pods] lists are permutations of each other have the
    same count for every fragment. *)
Theorem count_permutation (r r' : value) (f : string) (v : value) :
  Permutation (pods_or_empty r) (pods_or_empty r') ->
  outcome (countByFragment r f) = Ok v ->
  outcome (countByFragment r' f) = Ok v.
Proof.
  intros Hp H. apply count_outcome in H as (kept & Hk & ->).
  destruct (filter_array_permutation _ _ _ Hp kept Hk) as (kept' & Hk' & Hpk).
  rewrite (Permutation_length Hpk). now apply count_of_kept.
Qed.

Lemma count_permutation_witness :
  Permutation (pods_or_empty overlapping_pods)
              (pods_or_empty (VObject [("pods", VArray [pod "0.5.0"; pod "0.4.10"])]))
  /\ outcome (countByFragment overlapping_pods "0.4.1") = Ok (count_value 1)
  /\ outcome (countByFragment (VObject [("pods", VArray [pod "0.5.0"; pod "0.4.10"])]) "0.4.1")
     = Ok (count_value 1).
Proof.
  assert (Hp : Permutation (pods_or_empty overlapping_pods)
                 (pods_or_empty (VObject [("pods", VArray [pod "0.5.0"; pod "0.4.10"])])))
    by apply perm_swap.
  split; [exact Hp|]. split; [reflexivity|].
  exact (count_permutation overlapping_pods
           (VObject [("pods", VArray [pod "0.5.0"; pod "0.4.10"])]) "0.4.1"
           (count_value 1) Hp eq_refl).
Defined.

(** X4. When the result has no numeric [total_count], the total is the
    count for the empty fragment, and no count made on the same result
    exceeds it. *)
Theorem fallback_total_bounds_counts (c : call) (r : value) (f : string) (v : value) :
  rpcCall c "get-pods" [] = Ok r ->
  (forall n, get r Field.total_count <> Ok (VNumber n)) ->
  outcome (getPodsByVersion c f) = Ok v ->
  outcome (getTotalPods c) = outcome (getPodsByVersion c "")
  /\ exists n t, v = count_value n
                 /\ outcome (getTotalPods c) = Ok (count_value t)
                 /\ n <= t.
Proof.
  intros Hc Hno. rewrite (getTotalPods_answer c r Hc), !(getPodsByVersion_answer c r _ Hc).
  intros H. apply count_outcome in H as (kept & Hk & ->).
  assert (Ht : outcome (totalCount r) = Ok (count_value (length (pods_or_empty r)))).
  { rewrite totalCount_unfold. destruct (numeric_total_count r) as [n|] eqn:Hn.
    - apply numeric_total_count_get in Hn. now destruct (Hno n).
    - reflexivity. }
  split.
  - rewrite Ht. symmetry. apply count_of_kept, filter_array_all.
    now apply filter_array_defined with f kept.
  - exists (length kept), (length (pods_or_empty r)). repeat split; auto.
    now apply filter_array_length with (matches f).
Qed.

Lemma fallback_total_bounds_counts_witness :
  rpcCall (Call 7 (returns overlapping_pods) 0) "get-pods" [] = Ok overlapping_pods
  /\ (forall n, get overlapping_pods Field.total_count <> Ok (VNumber n))
  /\ outcome (getPodsByVersion (Call 7 (returns overlapping_pods) 0) "0.4.1")
     = Ok (count_value 1)
  /\ outcome (getTotalPods (Call 7 (returns overlapping_pods) 0))
     = outcome (getPodsByVersion (Call 7 (returns overlapping_pods) 0) "").
Proof.
  assert (Hno : forall n, get overlapping_pods Field.total_count <> Ok (VNumber n))
    by (intros n; discriminate).
  split; [reflexivity|]. split; [exact Hno|]. split; [reflexivity|].
  exact (proj1 (fallback_total_bounds_counts (Call 7 (returns overlapping_pods) 0)
                  overlapping_pods "0.4.1" (count_value 1) eq_refl Hno eq_refl)).
Defined.

(** X5. On pod records whose versions are strings, the count for a
    fragment is the number of those strings in which the fragment occurs,
    whatever other fields the records have. *)
Theorem count_of_string_versions (r : value) (versions : list string) (f : string) :
  Forall2 (fun entry v => get entry Field.version = Ok (VString v))
          (pods_or_empty r) versions ->
  outcome (countByFragment r f)
  = Ok (count_value (length (filter (fun v => includes v f) versions))).
Proof.
  intros H.
  assert (Hk : exists kept,
             filter_array (matches f) (pods_or_empty r) = Ok kept
             /\ length kept = length (filter (fun v => includes v f) versions)).
  { induction H as [|entry v entries vs Hv _ (kept & Hk & Hl)].
    - now exists [].
    - cbn [filter_array filter]. unfold matches at 1. rewrite Hv. cbn [rbind to_string].
      rewrite Hk. cbn [rbind]. destruct (includes v f).
      + exists (entry :: kept). split; [reflexivity | simpl; now rewrite Hl].
      + exists kept. auto. }
  destruct Hk as (kept & Hk & <-). now apply count_of_kept.
Qed.

Lemma count_of_string_versions_witness :
  Forall2 (fun entry v => get entry Field.version = Ok (VString v))
          (pods_or_empty four_pods) ["0.4.0"; "0.4.1"; "0.4.1"; "0.4.2"]
  /\ outcome (countByFragment four_pods "0.4.1") = Ok (count_value 2).
Proof.
  assert (H : Forall2 (fun entry v => get entry Field.version = Ok (VString v))
                (pods_or_empty four_pods) ["0.4.0"; "0.4.1"; "0.4.1"; "0.4.2"])
    by (repeat constructor).
  split; [exact H|].
  exact (count_of_string_versions four_pods ["0.4.0"; "0.4.1"; "0.4.1"; "0.4.2"] "0.4.1" H).
Defined.



(** * Further properties of the report *)

Lemma figures_of_answer (r : run) (v : value) :
  (forall q, answer r q = Ok v) ->
  figure r Q040 = outcome (countByFragment v "0.4.0")
  /\ figure r Q041 = outcome (countByFragment v "0.4.1")
  /\ figure r Q042 = outcome (countByFragment v "0.4.2")
  /\ figure r QTotal = outcome (totalCount v).
Proof.
  intros H. cbn [figure].
  rewrite (getPodsByVersion_answer (query040 r) v "0.4.0" (H Q040)),
          (getPodsByVersion_answer (query041 r) v "0.4.1" (H Q041)),
          (getPodsByVersion_answer (query042 r) v "0.4.2" (H Q042)),
          (getTotalPods_answer (queryTotal r) v (H QTotal)).
  auto.
Qed.

Lemma no_pods_list (v : value) :
  (forall items, ~ has_pods_list v items) -> pods_or_empty v = [].
Proof.
  intros H. destruct v as [| |b|n|s|items|fields]; try reflexivity.
  cbn [pods_or_empty].
  destruct (lookup "pods" fields) as [[| |b|n|s|items|fs]|] eqn:Hl; try reflexivity.
  destruct (H items). apply has_pods_list_object. eauto.
Qed.

Lemma no_numeric_total (v : value) :
  (forall n, get v Field.total_count <> Ok (VNumber n)) -> numeric_total_count v = None.
Proof.
  intros H. destruct (numeric_total_count v) as [n|] eqn:Hn; [|reflexivity].
  apply numeric_total_count_get in Hn. now destruct (H n).
Qed.

Lemma empty_report_figures (r : run) (v : value) :
  (forall q, answer r q = Ok v) ->
  pods_or_empty v = [] -> numeric_total_count v = None ->
  getPNodesInfo r = Ok empty_report.
Proof.
  intros Ha Hp Ht. destruct (figures_of_answer r v Ha) as (H0 & H1 & H2 & H3).
  rewrite countByFragment_unfold in H0, H1, H2. rewrite totalCount_unfold, Ht in H3.
  rewrite Hp in *. unfold outcome in *. cbn in H0, H1, H2, H3.
  exact (getPNodesInfo_fulfilled r (Int 0) (Int 0) (Int 0) (Int 0) H0 H1 H2 H3).
Qed.

Lemma count_without_pods_list (c : call) (v : value) (f : string) :
  rpcCall c "get-pods" [] = Ok v ->
  (forall items, ~ has_pods_list v items) ->
  outcome (getPodsByVersion c f) = Ok (VNumber (Int 0)).
Proof.
  intros Hc Hp. rewrite (getPodsByVersion_answer c v f Hc), countByFragment_unfold.
  now rewrite (no_pods_list v Hp).
Qed.

Lemma total_without_pods_list (c : call) (v : value) :
  rpcCall c "get-pods" [] = Ok v ->
  (forall items, ~ has_pods_list v items) ->
  (forall n, get v Field.total_count <> Ok (VNumber n)) ->
  outcome (getTotalPods c) = Ok (VNumber (Int 0)).
Proof.
  intros Hc Hp Ht. rewrite (getTotalPods_answer c v Hc), totalCount_unfold.
  now rewrite (no_numeric_total v Ht), (no_pods_list v Hp).
Qed.

(** X7. Results of unexpected shape degrade to zeros: when each of the
    four calls returns a value with no [pods] list (the four values may
    differ: [undefined], [null], a number, a string, an object) and the
    value returned to the total query has no numeric [total_count], the
    report is the block with 0 for each of the three versions and 0 for
    the total. *)
Theorem report_of_unexpected_shape (r : run) :
  (forall q, exists v,
      answer r q = Ok v
      /\ (forall items, ~ has_pods_list v items)
      /\ (q = QTotal -> forall n, get v Field.total_count <> Ok (VNumber n))) ->
  getPNodesInfo r =
  Ok ("```ml" ++ newline ++
      "pNodes Version: Counts" ++ newline ++
      "       `0.4.0`:      0" ++ newline ++
      "       `0.4.1`:      0" ++ newline ++
      "       `0.4.2`:    0" ++ newline ++
      "         Total:    0" ++ newline ++
      "```").
Proof.
  intros H.
  destruct (H Q040) as (v0 & A0 & P0 & _), (H Q041) as (v1 & A1 & P1 & _),
           (H Q042) as (v2 & A2 & P2 & _), (H QTotal) as (v3 & A3 & P3 & T3).
  exact (getPNodesInfo_fulfilled r (Int 0) (Int 0) (Int 0) (Int 0)
           (count_without_pods_list (query040 r) v0 "0.4.0" A0 P0)
           (count_without_pods_list (query041 r) v1 "0.4.1" A1 P1)
           (count_without_pods_list (query042 r) v2 "0.4.2" A2 P2)
           (total_without_pods_list (queryTotal r) v3 A3 P3 (T3 eq_refl))).
Qed.

Lemma report_of_unexpected_shape_witness :
  answer run_of_odd_results Q040 = Ok (VString "ok")
  /\ answer run_of_odd_results Q041 = Ok VNull
  /\ answer run_of_odd_results Q042 = Ok (VNumber (Int 3))
  /\ answer run_of_odd_results QTotal = Ok (VObject [])
  /\ (forall q, exists v,
         answer run_of_odd_results q = Ok v
         /\ (forall items, ~ has_pods_list v items)
         /\ (q = QTotal -> forall n, get v Field.total_count <> Ok (VNumber n)))
  /\ getPNodesInfo run_of_odd_results = Ok empty_report.
Proof.
  assert (H : forall q, exists v,
             answer run_of_odd_results q = Ok v
             /\ (forall items, ~ has_pods_list v items)
             /\ (q = QTotal -> forall n, get v Field.total_count <> Ok (VNumber n))).
  { intros q. destruct q; eexists; (split; [reflexivity|]); split;
      try (intros items (Hu & Hn & Hg); (discriminate Hg || now destruct Hn));
      intros Hq n; discriminate. }
  repeat (split; [reflexivity|]). split; [exact H|].
  exact (report_of_unexpected_shape run_of_odd_results H).
Defined.

(** X8. Diagnostics: a count query prints the warning of [extractPods]
    once when its call returns a value without a [pods] list, and nothing
    when there is one; the total query prints nothing when [total_count]
    is a number, even without a [pods] list; a query whose call raises
    prints nothing. *)
Theorem diagnostics_of_queries (c : call) (f : string) :
  (forall r items, rpcCall c "get-pods" [] = Ok r -> has_pods_list r items ->
                   fst (getPodsByVersion c f) = [] /\ fst (getTotalPods c) = [])
  /\ (forall r, rpcCall c "get-pods" [] = Ok r -> (forall items, ~ has_pods_list r items) ->
                fst (getPodsByVersion c f) = [unexpected_shape r])
  /\ (forall r n, rpcCall c "get-pods" [] = Ok r ->
                  get r Field.total_count = Ok (VNumber n) ->
                  fst (getTotalPods c) = [])
  /\ (forall e, rpcCall c "get-pods" [] = Throw e ->
                fst (getPodsByVersion c f) = [] /\ fst (getTotalPods c) = []).
Proof.
  split; [|split; [|split]].
  - intros r items Hc Hp.
    rewrite (getPodsByVersion_answer c r f Hc), (getTotalPods_answer c r Hc).
    rewrite countByFragment_unfold, totalCount_unfold.
    apply has_pods_list_object in Hp as (fields & -> & Hl).
    rewrite extractPods_unfold, Hl. split; [reflexivity|].
    now destruct (numeric_total_count (VObject fields)).
  - intros r Hc Hp. rewrite (getPodsByVersion_answer c r f Hc), countByFragment_unfold.
    cbn [fst]. rewrite extractPods_unfold.
    destruct r as [| |b|n|s|items|fields]; try reflexivity.
    destruct (lookup "pods" fields) as [[| |b|n|s|items|fs]|] eqn:Hl; try reflexivity.
    destruct (Hp items). apply has_pods_list_object. eauto.
  - intros r n Hc Hn. rewrite (getTotalPods_answer c r Hc), totalCount_unfold.
    apply numeric_total_count_get in Hn. now rewrite Hn.
  - intros e Hc. unfold getPodsByVersion, getTotalPods, lift, bind. now rewrite Hc.
Qed.

Lemma diagnostics_of_queries_witness :
  rpcCall (Call 7 (returns (VObject [("total_count", VNumber (Int 3))])) 0) "get-pods" []
  = Ok (VObject [("total_count", VNumber (Int 3))])
  /\ (forall items, ~ has_pods_list (VObject [("total_count", VNumber (Int 3))]) items)
  /\ fst (getPodsByVersion (Call 7 (returns (VObject [("total_count", VNumber (Int 3))])) 0)
                           "0.4.0")
     = [unexpected_shape (VObject [("total_count", VNumber (Int 3))])]
  /\ fst (getTotalPods (Call 7 (returns (VObject [("total_count", VNumber (Int 3))])) 0)) = [].
Proof.
  assert (Hp : forall items, ~ has_pods_list (VObject [("total_count", VNumber (Int 3))]) items)
    by (intros items (_ & _ & H); discriminate).
  split; [reflexivity|]. split; [exact Hp|]. split.
  - exact (proj1 (proj2 (diagnostics_of_queries
             (Call 7 (returns (VObject [("total_count", VNumber (Int 3))])) 0) "0.4.0"))
             _ eq_refl Hp).
  - exact (proj1 (proj2 (proj2 (diagnostics_of_queries
             (Call 7 (returns (VObject [("total_count", VNumber (Int 3))])) 0) "0.4.0")))
             _ (Int 3) eq_refl eq_refl).
Defined.

Lemma rejection_is_a_query (r : run) (t : nat) (e : exn) :
  first_rejection (queries r) = Some (t, e) -> exists q, figure r q = Throw e.
Proof.
  intros H. destruct (first_rejection_earliest _ _ _ H) as (p & Hp & Hs & _).
  apply in_queries in Hp as [q ->]. now exists q.
Qed.

Lemma failure_is_rejected (r : run) (q : query) (e : exn) :
  figure r q = Throw e -> exists t e', first_rejection (queries r) = Some (t, e').
Proof.
  intros H. apply first_rejection_some with (settled_query r q) e; [|exact H].
  apply in_queries. now exists q.
Qed.

Lemma getPNodesInfo_text (r : run) :
  (exists e, (exists q, figure r q = Throw e)
             /\ getPNodesInfo r = Ok ("Error retrieving data: " ++ message e))
  \/ ((forall q, exists n, figure r q = Ok (VNumber n))
      /\ exists t040 t041 t042 ttotal,
           getPNodesInfo r = Ok (report_text t040 t041 t042 ttotal)).
Proof.
  destruct (queries_settle r) as [(t & e & H)|H].
  - left. exists e. split; [now apply rejection_is_a_query with t|].
    now apply getPNodesInfo_rejected with t.
  - right. split; [exact H|].
    destruct (H Q040) as [n0 H0], (H Q041) as [n1 H1],
             (H Q042) as [n2 H2], (H QTotal) as [n3 H3].
    rewrite (getPNodesInfo_fulfilled r _ _ _ _ H0 H1 H2 H3). eauto.
Qed.

Lemma getPNodesInfo_common_message (r : run) (m : string) :
  (exists q e, figure r q = Throw e) ->
  (forall q e, figure r q = Throw e -> message e = m) ->
  getPNodesInfo r = Ok ("Error retrieving data: " ++ m).
Proof.
  intros (q & e & H) Hm. destruct (failure_is_rejected r q e H) as (t & e' & Hfr).
  destruct (rejection_is_a_query r t e' Hfr) as [q' Hq'].
  rewrite (getPNodesInfo_rejected r t e' Hfr). now rewrite (Hm q' e' Hq').
Qed.

(** X9. The two texts cannot be confused: the text returned starts with
    the fence exactly when all four queries succeeded, and with "Error
    retrieving data: " exactly when one of them failed. *)
Theorem report_or_error_line (r : run) :
  exists text,
    getPNodesInfo r = Ok text
    /\ ((forall q, exists v, figure r q = Ok v) <-> starts_with ("```ml" ++ newline) text)
    /\ ((exists q e, figure r q = Throw e) <-> starts_with "Error retrieving data: " text).
Proof.
  destruct (getPNodesInfo_text r) as [(e & [q Hq] & H)|(Hok & t0 & t1 & t2 & t3 & H)];
    rewrite H; eexists; (split; [reflexivity|]); split; split.
  - intros Hall. destruct (Hall q) as [v Hv]. congruence.
  - intros [rest Hr]. discriminate.
  - intros _. now eexists.
  - eauto.
  - intros _. now eexists.
  - intros _ q. destruct (Hok q) as [n Hn]. eauto.
  - intros (q & e & Hq). destruct (Hok q) as [n Hn]. congruence.
  - intros [rest Hr]. discriminate.
Qed.

(** X10. When every query that fails carries the same message, in
    particular when only one fails, the text is that message after
    "Error retrieving data: ", whatever the order in which the queries
    settle. *)
Theorem report_of_common_failure (r : run) (m : string) :
  (exists q e, figure r q = Throw e) ->
  (forall q e, figure r q = Throw e -> message e = m) ->
  getPNodesInfo r = Ok ("Error retrieving data: " ++ m).
Proof. exact (getPNodesInfo_common_message r m). Qed.

Lemma report_of_common_failure_witness :
  (exists q e, figure run_with_long_message q = Throw e)
  /\ (forall q e, figure run_with_long_message q = Throw e ->
                  message e = "RPC error (1): " ++ two_lines)
  /\ getPNodesInfo run_with_long_message
     = Ok ("Error retrieving data: " ++ ("RPC error (1): " ++ two_lines)).
Proof.
  assert (H1 : exists q e, figure run_with_long_message q = Throw e)
    by (exists QTotal; eexists; reflexivity).
  assert (H2 : forall q e, figure run_with_long_message q = Throw e ->
                           message e = "RPC error (1): " ++ two_lines).
  { intros [] e H; try discriminate. now injection H as <-. }
  split; [exact H1|]. split; [exact H2|].
  exact (report_of_common_failure run_with_long_message _ H1 H2).
Defined.

Lemma rpcCall_remote_error (c : call) (res : response) (data : value)
      (code : Z) (msg : string) :
  fetch c (request_of c "get-pods" []) = Ok res -> ok res = true ->
  json res = Ok data -> error_body data code msg ->
  rpcCall c "get-pods" [] =
  Throw (Error ("RPC error (" ++ number_to_string (Int code) ++ "): " ++ msg)).
Proof.
  intros Hf Hok Hj (fields & detail & -> & He & Hc & Hm).
  rewrite rpcCall_unfold, Hf. cbn [rbind]. rewrite Hok. cbn [negb]. rewrite Hj.
  cbn [rbind get Field.name]. rewrite He. cbn [rbind truthy get Field.name].
  rewrite Hc, Hm. reflexivity.
Qed.

(** X11. A remote error surfaces in the text: when the transport answers
    each of the four calls with a JSON-RPC error of code [code] and
    message [msg], the text is "Error retrieving data: RPC error (code):
    msg". *)
Theorem report_of_remote_error (r : run) (code : Z) (msg : string) :
  (forall q, exists res data,
      fetch (call_of r q) (request_of (call_of r q) "get-pods" []) = Ok res
      /\ ok res = true /\ json res = Ok data /\ error_body data code msg) ->
  getPNodesInfo r =
  Ok ("Error retrieving data: RPC error (" ++ number_to_string (Int code) ++ "): " ++ msg).
Proof.
  intros H.
  assert (Ha : forall q, figure r q =
             Throw (Error ("RPC error (" ++ number_to_string (Int code) ++ "): " ++ msg))).
  { intros q. apply answer_failure. destruct (H q) as (res & data & Hf & Hok & Hj & Hb).
    now apply rpcCall_remote_error with res data. }
  apply (getPNodesInfo_common_message r
           ("RPC error (" ++ number_to_string (Int code) ++ "): " ++ msg)).
  - exists Q040. eexists. apply Ha.
  - intros q e He. rewrite Ha in He. now injection He as <-.
Qed.

Lemma report_of_remote_error_witness :
  (forall q, exists res data,
      fetch (call_of (same_call_four_times (Call 7 (fails_with (-32601) "method not found") 0)) q)
            (request_of
               (call_of (same_call_four_times (Call 7 (fails_with (-32601) "method not found") 0)) q)
               "get-pods" []) = Ok res
      /\ ok res = true /\ json res = Ok data
      /\ error_body data (-32601) "method not found")
  /\ getPNodesInfo (same_call_four_times (Call 7 (fails_with (-32601) "method not found") 0))
     = Ok "Error retrieving data: RPC error (-32601): method not found".
Proof.
  assert (H : forall q, exists res data,
      fetch (call_of (same_call_four_times (Call 7 (fails_with (-32601) "method not found") 0)) q)
            (request_of
               (call_of (same_call_four_times (Call 7 (fails_with (-32601) "method not found") 0)) q)
               "get-pods" []) = Ok res
      /\ ok res = true /\ json res = Ok data
      /\ error_body data (-32601) "method not found").
  { intros q. do 2 eexists. split; [destruct q; reflexivity|].
    split; [reflexivity|]. split; [reflexivity|].
    do 2 eexists. repeat split; reflexivity. }
  split; [exact H|].
  exact (report_of_remote_error _ (-32601) "method not found" H).
Defined.

(** X12. A failure of the transport surfaces in the text: when the four
    calls meet the same non-success status, the text is "Error retrieving
    data: RPC request failed: " with the status code and the reason
    phrase; when [fetch] itself rejects each with the message [m], the
    text is "Error retrieving data: " followed by [m]. *)
Theorem report_of_transport_failure (r : run) :
  (forall code reason,
      (forall q, exists res,
          fetch (call_of r q) (request_of (call_of r q) "get-pods" []) = Ok res
          /\ ok res = false /\ status res = code /\ statusText res = reason) ->
      getPNodesInfo r =
      Ok ("Error retrieving data: RPC request failed: "
            ++ number_to_string (Int code) ++ " " ++ reason))
  /\ (forall m,
         (forall q, exists e,
             fetch (call_of r q) (request_of (call_of r q) "get-pods" []) = Throw e
             /\ message e = m) ->
         getPNodesInfo r = Ok ("Error retrieving data: " ++ m)).
Proof.
  split.
  - intros code reason H.
    assert (Ha : forall q, figure r q =
               Throw (Error ("RPC request failed: " ++ number_to_string (Int code)
                               ++ " " ++ reason))).
    { intros q. apply answer_failure. destruct (H q) as (res & Hf & Hok & <- & <-).
      unfold answer. rewrite rpcCall_unfold, Hf. cbn [rbind]. now rewrite Hok. }
    apply (getPNodesInfo_common_message r
             ("RPC request failed: " ++ number_to_string (Int code) ++ " " ++ reason)).
    + exists Q040. eexists. apply Ha.
    + intros q e He. rewrite Ha in He. now injection He as <-.
  - intros m H.
    assert (Ha : forall q, exists e, figure r q = Throw e /\ message e = m).
    { intros q. destruct (H q) as (e & Hf & Hm). exists e. split; [|exact Hm].
      apply answer_failure. unfold answer. now rewrite rpcCall_unfold, Hf. }
    apply getPNodesInfo_common_message.
    + destruct (Ha Q040) as (e & He & _). eauto.
    + intros q e He. destruct (Ha q) as (e' & He' & Hm). congruence.
Qed.

Lemma report_of_transport_failure_witness :
  (forall q, exists res,
      fetch (call_of (same_call_four_times (Call 7 (http_error 502 "Bad Gateway") 0)) q)
            (request_of (call_of (same_call_four_times (Call 7 (http_error 502 "Bad Gateway") 0)) q)
                        "get-pods" []) = Ok res
      /\ ok res = false /\ status res = 502%Z /\ statusText res = "Bad Gateway")
  /\ getPNodesInfo (same_call_four_times (Call 7 (http_error 502 "Bad Gateway") 0))
     = Ok "Error retrieving data: RPC request failed: 502 Bad Gateway".
Proof.
  assert (H : forall q, exists res,
      fetch (call_of (same_call_four_times (Call 7 (http_error 502 "Bad Gateway") 0)) q)
            (request_of (call_of (same_call_four_times (Call 7 (http_error 502 "Bad Gateway") 0)) q)
                        "get-pods" []) = Ok res
      /\ ok res = false /\ status res = 502%Z /\ statusText res = "Bad Gateway").
  { intros q. eexists. split; [destruct q; reflexivity|]. repeat split. }
  split; [exact H|].
  exact (proj1 (report_of_transport_failure _) 502%Z "Bad Gateway" H).
Defined.

(** * Further properties of [rpcCall] *)

Lemma rpcCall_without_result (c : call) (res : response) (data : value) :
  fetch c (request_of c "get-pods" []) = Ok res -> ok res = true ->
  json res = Ok data ->
  plain data = true
  \/ (exists fields, data = VObject fields
                     /\ lookup "error" fields = None /\ lookup "result" fields = None) ->
  rpcCall c "get-pods" [] = Ok VUndefined.
Proof.
  intros Hf Hok Hj Hd. rewrite rpcCall_unfold, Hf. cbn [rbind]. rewrite Hok.
  cbn [negb]. rewrite Hj. cbn [rbind].
  destruct Hd as [Hp|(fields & -> & He & Hr)].
  - destruct data; try discriminate; reflexivity.
  - cbn [get Field.name]. rewrite He. cbn [rbind truthy get Field.name]. now rewrite Hr.
Qed.

(** X13. A body without result: when the transport answers each call with
    a success status and a body that is a boolean, a number, a string, an
    array, or an object with neither an [error] nor a [result] field, every
    call returns [undefined] and the report is the block of zeros. *)
Theorem report_of_body_without_result (r : run) :
  (forall q, exists res data,
      fetch (call_of r q) (request_of (call_of r q) "get-pods" []) = Ok res
      /\ ok res = true /\ json res = Ok data
      /\ (plain data = true
          \/ exists fields, data = VObject fields
                            /\ lookup "error" fields = None
                            /\ lookup "result" fields = None)) ->
  (forall q, answer r q = Ok VUndefined)
  /\ getPNodesInfo r =
     Ok ("```ml" ++ newline ++
         "pNodes Version: Counts" ++ newline ++
         "       `0.4.0`:      0" ++ newline ++
         "       `0.4.1`:      0" ++ newline ++
         "       `0.4.2`:    0" ++ newline ++
         "         Total:    0" ++ newline ++
         "```").
Proof.
  intros H.
  assert (Ha : forall q, answer r q = Ok VUndefined).
  { intros q. destruct (H q) as (res & data & Hf & Hok & Hj & Hd).
    now apply rpcCall_without_result with res data. }
  split; [exact Ha|].
  exact (empty_report_figures r VUndefined Ha eq_refl eq_refl).
Qed.

Lemma report_of_body_without_result_witness :
  (forall q, exists res data,
      fetch (call_of (same_call_four_times (Call 7 (replies (VArray [])) 0)) q)
            (request_of (call_of (same_call_four_times (Call 7 (replies (VArray [])) 0)) q)
                        "get-pods" []) = Ok res
      /\ ok res = true /\ json res = Ok data
      /\ (plain data = true
          \/ exists fields, data = VObject fields
                            /\ lookup "error" fields = None
                            /\ lookup "result" fields = None))
  /\ getPNodesInfo (same_call_four_times (Call 7 (replies (VArray [])) 0)) = Ok empty_report.
Proof.
  assert (H : forall q, exists res data,
      fetch (call_of (same_call_four_times (Call 7 (replies (VArray [])) 0)) q)
            (request_of (call_of (same_call_four_times (Call 7 (replies (VArray [])) 0)) q)
                        "get-pods" []) = Ok res
      /\ ok res = true /\ json res = Ok data
      /\ (plain data = true
          \/ exists fields, data = VObject fields
                            /\ lookup "error" fields = None
                            /\ lookup "result" fields = None)).
  { intros q. do 2 eexists. split; [destruct q; reflexivity|].
    split; [reflexivity|]. split; [reflexivity|]. now left. }
  split; [exact H|].
  exact (proj2 (report_of_body_without_result _ H)).
Defined.

(** X14. An [error] field that is truthy but not an object (a string, a
    number, [true], an array) has neither code nor message: the call
    fails with "RPC error (undefined): undefined". *)
Theorem remote_error_without_detail
  (c : call) (m : string) (ps : list value) (res : response) (data err : value) :
  fetch c (request_of c m ps) = Ok res -> ok res = true ->
  json res = Ok data -> get data Field.error = Ok err ->
  truthy err = true -> plain err = true ->
  rpcCall c m ps = Throw (Error "RPC error (undefined): undefined").
Proof.
  intros Hf Hok Hj He Ht Hp. rewrite rpcCall_unfold, Hf. cbn [rbind]. rewrite Hok.
  cbn [negb]. rewrite Hj. cbn [rbind]. rewrite He. cbn [rbind]. rewrite Ht.
  destruct err; try discriminate; reflexivity.
Qed.

Lemma remote_error_without_detail_witness :
  truthy (VString "boom") = true /\ plain (VString "boom") = true
  /\ rpcCall (Call 7 (replies (VObject [("error", VString "boom")])) 0) "get-pods" []
     = Throw (Error "RPC error (undefined): undefined").
Proof.
  split; [reflexivity|]. split; [reflexivity|].
  exact (remote_error_without_detail
           (Call 7 (replies (VObject [("error", VString "boom")])) 0) "get-pods" []
           (Response true 200 "OK" (Ok (VObject [("error", VString "boom")])))
           (VObject [("error", VString "boom")]) (VString "boom")
           eq_refl eq_refl eq_refl eq_refl eq_refl eq_refl).
Defined.

(** * The command handler *)

Lemma onInteractionCreate_pnodes (r : run) (i : interaction) :
  isCommand i = true -> commandName i = "pnodes" ->
  onInteractionCreate r i =
  match deferReply i with
  | Throw e => ([DeferReply], Throw e)
  | Ok _ =>
      match getPNodesInfo r with
      | Throw e => ([DeferReply], Throw e)
      | Ok info => ([DeferReply; EditReply info], editReply i info)
      end
  end.
Proof.
  intros Hc Hn. unfold onInteractionCreate. rewrite Hc, Hn. cbn [negb String.eqb].
  change ("pnodes" =? "pnodes") with true. cbv iota.
  unfold dcall, dbind. destruct (deferReply i) as [u|e]; [|reflexivity].
  destruct (getPNodesInfo r) as [info|e]; [|reflexivity].
  now destruct (editReply i info).
Qed.

Lemma onInteractionCreate_other (r : run) (i : interaction) :
  isCommand i = false \/ commandName i <> "pnodes" ->
  onInteractionCreate r i = ([], Ok tt).
Proof.
  intros H. unfold onInteractionCreate. destruct (isCommand i); [|reflexivity].
  destruct H as [H|H]; [discriminate|]. cbn [negb].
  destruct (String.eqb_spec (commandName i) "pnodes"); [contradiction | reflexivity].
Qed.

Lemma getPNodesInfo_starts (r : run) :
  exists text, getPNodesInfo r = Ok text
               /\ (starts_with ("```ml" ++ newline) text
                   \/ starts_with "Error retrieving data: " text).
Proof.
  destruct (getPNodesInfo_text r) as [(e & _ & H)|(_ & t0 & t1 & t2 & t3 & H)];
    rewrite H; eexists; (split; [reflexivity|]).
  - right. now eexists.
  - left. now eexists.
Qed.

(** X15. The handler answers exactly the commands registered at startup:
    it calls Discord for an interaction if and only if the interaction is
    a command whose name is one of [registered_commands]; for any other
    interaction it returns without a call. *)
Theorem handler_answers_registered_commands (r : run) (i : interaction) :
  (fst (onInteractionCreate r i) <> []
   <-> isCommand i = true /\ In (commandName i) (map command_name registered_commands))
  /\ (~ (isCommand i = true /\ In (commandName i) (map command_name registered_commands)) ->
      onInteractionCreate r i = ([], Ok tt)).
Proof.
  assert (Hin : In (commandName i) (map command_name registered_commands)
                <-> commandName i = "pnodes").
  { cbn. split; [intros [H|[]]; now symmetry | intros ->; now left]. }
  rewrite Hin. split; [split|].
  - intros H. destruct (isCommand i) eqn:Hc.
    + split; [reflexivity|]. destruct (String.eqb_spec (commandName i) "pnodes"); [assumption|].
      rewrite onInteractionCreate_other in H by now right. now destruct H.
    + rewrite onInteractionCreate_other in H by now left. now destruct H.
  - intros [Hc Hn]. rewrite (onInteractionCreate_pnodes r i Hc Hn).
    destruct (deferReply i); [|discriminate].
    destruct (getPNodesInfo r); discriminate.
  - intros H. apply onInteractionCreate_other.
    destruct (isCommand i); [right | now left]. intros Hn. apply H. auto.
Qed.

(** X16. On a [pnodes] command whose [deferReply] succeeds, the handler
    makes two calls, [deferReply] and then one [editReply] whose content
    is the text of [getPNodesInfo], the report or the error line; its
    outcome is that of [editReply]. *)
Theorem handler_replies_with_report (r : run) (i : interaction) (u : unit) :
  isCommand i = true -> commandName i = "pnodes" -> deferReply i = Ok u ->
  exists text,
    getPNodesInfo r = Ok text
    /\ onInteractionCreate r i = ([DeferReply; EditReply text], editReply i text)
    /\ (starts_with ("```ml" ++ newline) text
        \/ starts_with "Error retrieving data: " text).
Proof.
  intros Hc Hn Hd. destruct (getPNodesInfo_starts r) as (text & Ht & Hs).
  exists text. split; [exact Ht|]. split; [|exact Hs].
  now rewrite (onInteractionCreate_pnodes r i Hc Hn), Hd, Ht.
Qed.

Lemma handler_replies_with_report_witness :
  isCommand (Interaction true "pnodes" (Ok tt) (fun _ => Ok tt)) = true
  /\ commandName (Interaction true "pnodes" (Ok tt) (fun _ => Ok tt)) = "pnodes"
  /\ exists text,
       getPNodesInfo run_status_first = Ok text
       /\ onInteractionCreate run_status_first
            (Interaction true "pnodes" (Ok tt) (fun _ => Ok tt))
          = ([DeferReply; EditReply text], Ok tt).
Proof.
  split; [reflexivity|]. split; [reflexivity|].
  destruct (handler_replies_with_report run_status_first
              (Interaction true "pnodes" (Ok tt) (fun _ => Ok tt)) tt
              eq_refl eq_refl eq_refl) as (text & Ht & Hh & _).
  exists text. split; [exact Ht | exact Hh].
Defined.

(** X17. The handler raises only when Discord does: if it ends with a
    failure, that failure is the one of [deferReply], and then nothing
    was sent after it, or the one of [editReply] on the text of
    [getPNodesInfo].  A failure of the RPC calls never reaches the
    caller. *)
Theorem handler_raises_only_from_discord (r : run) (i : interaction) (e : exn) :
  snd (onInteractionCreate r i) = Throw e ->
  (deferReply i = Throw e /\ fst (onInteractionCreate r i) = [DeferReply])
  \/ (exists text, getPNodesInfo r = Ok text /\ editReply i text = Throw e
                   /\ fst (onInteractionCreate r i) = [DeferReply; EditReply text]).
Proof.
  destruct (isCommand i) eqn:Hc.
  - destruct (String.eqb_spec (commandName i) "pnodes") as [Hn|Hn].
    + rewrite (onInteractionCreate_pnodes r i Hc Hn).
      destruct (getPNodesInfo_starts r) as (text & Ht & _). rewrite Ht.
      destruct (deferReply i) as [u|e']; cbn [fst snd].
      * intros He. right. exists text. auto.
      * intros He. injection He as ->. now left.
    + rewrite onInteractionCreate_other by now right. discriminate.
  - rewrite onInteractionCreate_other by now left. discriminate.
Qed.

Lemma handler_raises_only_from_discord_witness :
  snd (onInteractionCreate run_status_first
         (Interaction true "pnodes" (Throw (Error "Unknown interaction")) (fun _ => Ok tt)))
  = Throw (Error "Unknown interaction")
  /\ fst (onInteractionCreate run_status_first
            (Interaction true "pnodes" (Throw (Error "Unknown interaction")) (fun _ => Ok tt)))
     = [DeferReply].
Proof.
  split; [reflexivity|].
  destruct (handler_raises_only_from_discord run_status_first
              (Interaction true "pnodes" (Throw (Error "Unknown interaction")) (fun _ => Ok tt))
              (Error "Unknown interaction") eq_refl) as [[_ H]|(text & _ & H & _)].
  - exact H.
  - discriminate H.
Defined.
